(** * pytwitter.streaming: the streaming connection lifecycle

    A shallow embedding of [StreamApi] from [src/pytwitter/streaming.py]:
    [_connect] (the connect / read / backoff loop), [on_data], [disconnect]
    and [sample], followed by the properties of the connection lifecycle.

    The program talks to three collaborators that are not part of the file:
    the HTTP transport ([requests.Session.get] and [Response.iter_lines]),
    the user callbacks ([on_tweet], [on_keep_alive], [on_request_error],
    overridable methods) and whoever calls [disconnect()].  Their behaviour
    during one call is recorded in a _script_: the list of responses the
    transport gives, each with the lines of its body, and for every callback
    invocation what it raises (if anything) and whether [disconnect()] has
    been called by the time the loop next reads the [running] flag.  The
    functions below are the Python code run against such a script; they
    return the way the call ended, the controller afterwards and the trace of
    observable events. *)

From Stdlib Require Import ZArith List Ascii String Bool Lia.
Import ListNotations.
Local Open Scope string_scope.
Local Open Scope list_scope.
Local Open Scope Z_scope.
Set Warnings "-register-all,-notation-for-abbreviation".

(** ** JSON values, as [json.loads] builds them

    A dict is the list of its items (its keys are distinct); the fractional
    part of a number plays no role in what follows. *)

Inductive json : Type :=
| JNull
| JBool (b : bool)
| JNumber (n : Z)
| JString (s : string)
| JArray (items : list json)
| JObject (fields : list (string * json)).

(** ** Exceptions

    [PyTwitterError] carries its [message] (a string or the value of the
    [errors] field).  The last two constructors are the exceptions that derive
    from [BaseException] but not from [Exception]. *)

Inductive exn : Type :=
| PyTwitterError (message : json)
| JSONDecodeError
| TypeError
| KeyError (key : string)
| RequestException
| UserError (tag : string)
| KeyboardInterrupt
| SystemExit.

(** [isinstance(e, Exception)] *)
Definition is_Exception (e : exn) : bool :=
  match e with
  | KeyboardInterrupt | SystemExit => false
  | _ => true
  end.

(** A small error monad for Python expressions that may raise. *)
Definition result (A : Type) : Type := (exn + A)%type.

Definition bind {A B : Type} (m : result A) (k : A -> result B) : result B :=
  match m with
  | inl e => inl e
  | inr a => k a
  end.

Notation "x <- m ;; k" := (bind m (fun x => k))
  (at level 61, m at next level, right associativity).

(** ** The Python operators [on_data] applies to the parsed payload *)

Fixpoint lookup (key : string) (fields : list (string * json)) : option json :=
  match fields with
  | [] => None
  | (k, v) :: rest => if String.eqb key k then Some v else lookup key rest
  end.

Definition is_JString (s : string) (j : json) : bool :=
  match j with
  | JString t => String.eqb s t
  | _ => false
  end.

(** [key in data]: key membership for a dict, element membership for a list,
    substring test for a str, [TypeError] for anything else. *)
Definition py_in (key : string) (data : json) : result bool :=
  match data with
  | JObject fields =>
      inr (match lookup key fields with Some _ => true | None => false end)
  | JArray items => inr (existsb (is_JString key) items)
  | JString s =>
      inr (match String.index 0 key s with Some _ => true | None => false end)
  | JNull | JBool _ | JNumber _ => inl TypeError
  end.

(** [data[key]] with a str [key]: only a dict can answer. *)
Definition py_getitem (data : json) (key : string) : result json :=
  match data with
  | JObject fields =>
      match lookup key fields with
      | Some v => inr v
      | None => inl (KeyError key)
      end
  | _ => inl TypeError
  end.

(** ** The controller and its environment *)

Record StreamApi : Type := {
  running : bool;
  _auth : bool;              (* [self._auth] is set (truthy) *)
  max_retries : Z;
  session_closed : bool      (* [self.session.close()] has been called *)
}.

Definition set_running (b : bool) (self : StreamApi) : StreamApi :=
  {| running := b;
     _auth := _auth self;
     max_retries := max_retries self;
     session_closed := session_closed self |}.

Definition session_close (self : StreamApi) : StreamApi :=
  {| running := running self;
     _auth := _auth self;
     max_retries := max_retries self;
     session_closed := true |}.

(** One line yielded by [resp.iter_lines], with what the environment does
    while the loop handles it. *)
Record line : Type := {
  ln_raw : string;              (* the bytes of the line *)
  ln_callback : option exn;     (* what the user callback raises, if called *)
  ln_disconnect : bool          (* [disconnect()] lands before the flag check
                                   that follows this line *)
}.

(** How the body of a response ends once its lines are consumed. *)
Inductive body_end : Type :=
| StreamCloses (disconnected : bool)   (* [iter_lines] is exhausted *)
| StreamRaises (e : exn).              (* [iter_lines] raises *)

Inductive response : Type :=
| GetRaises (e : exn)                  (* [session.get] raises *)
| Response (status_code : Z)
           (disconnected : bool)       (* [disconnect()] lands during the attempt *)
           (error_callback : option exn) (* what [on_request_error] raises *)
           (lines : list line)
           (fin : body_end).

(** The local variables of [_connect]. *)
Record locals : Type := {
  retries : Z;
  http_error_wait : Z
}.

Definition http_error_wait_max : Z := 320.

Definition initial_locals : locals := {| retries := 0; http_error_wait := 5 |}.

Definition BASE_URL : string := "https://api.twitter.com/2".

(** *** Scripts of failed attempts *)

(** A connection attempt answered with a non-success status, during which
    nobody disconnects and [on_request_error] returns. *)
Definition refusal (r : response) : bool :=
  match r with
  | Response status_code false None _ _ => negb (status_code =? 200)
  | _ => false
  end.

(** The locals after [n] failed attempts in a row from the start of a call. *)
Definition after_failures (n : nat) : locals :=
  {| retries := Z.of_nat n; http_error_wait := 5 * 2 ^ Z.of_nat n |}.

(** The delay formula of the specification, [min(base * 2^(N-1), cap)] for
    the [N]th failure. *)
Definition backoff_formula (base cap : Z) (N : nat) : Z :=
  Z.min (base * 2 ^ (Z.of_nat N - 1)) cap.


(** A failed connection attempt: a non-success status, or a transport fault
    (an [Exception] raised by [session.get]). *)
Definition failed_attempt (r : response) : bool :=
  match r with
  | GetRaises e => is_Exception e
  | _ => refusal r
  end.


Section Streaming.

(** [md.Tweet], [md.Tweet.new_from_json_dict] and [json.loads] live outside
    the module; they are taken as given. [json_loads] answers [None] where
    [json.loads] raises. *)
Variable Tweet : Type.
Variable json_loads : string -> option json.
Variable new_from_json_dict : json -> result Tweet.

(** What [on_tweet] receives. *)
Inductive tweet_arg : Type :=
| Raw (data : json)
| Typed (tweet : Tweet).

(** Observable events of a call, in program order. *)
Inductive event : Type :=
| EvGet (url : string)            (* [session.get]: a connection is opened *)
| EvHeaders                       (* [print(resp.headers)] *)
| EvTweet (tweet : tweet_arg)     (* [on_tweet] is invoked *)
| EvKeepAlive                     (* [on_keep_alive] is invoked *)
| EvRequestError (status_code : Z) (* [on_request_error] is invoked *)
| EvSleep (seconds : Z)           (* [time.sleep] *)
| EvLog (e : exn)                 (* [logger.exception] *)
| EvClose.                        (* [session.close()] *)

(** A call of a hook: what it raises, and the events it leaves. *)
Definition call : Type := (option exn * list event)%type.

Definition on_tweet (behaviour : option exn) (tweet : tweet_arg) : call :=
  (behaviour, [EvTweet tweet]).

Definition on_keep_alive (behaviour : option exn) : call :=
  (behaviour, [EvKeepAlive]).

Definition on_request_error (behaviour : option exn) (status_code : Z) : call :=
  (behaviour, [EvRequestError status_code]).

Definition loads (raw_data : string) : result json :=
  match json_loads raw_data with
  | Some data => inr data
  | None => inl JSONDecodeError
  end.

(** [on_data]: parse, refuse a payload with ["errors"], map to a [Tweet]
    when [return_json] is set, hand over to [on_tweet]. *)
Definition on_data (raw_data : string) (return_json : bool)
           (behaviour : option exn) : call :=
  let prepared : result tweet_arg :=
    data <- loads raw_data ;;
    has_errors <- py_in "errors" data ;;
    if has_errors : bool then
      message <- py_getitem data "errors" ;;
      inl (PyTwitterError message)
    else if return_json then
      inner <- py_getitem data "data" ;;
      tweet <- new_from_json_dict inner ;;
      inr (Typed tweet)
    else inr (Raw data)
  in
  match prepared with
  | inl e => (Some e, [])
  | inr tweet => on_tweet behaviour tweet
  end.

Definition disconnect (self : StreamApi) : StreamApi := set_running false self.

Definition lands (disconnected : bool) (self : StreamApi) : StreamApi :=
  if disconnected then disconnect self else self.

Definition nonempty (raw : string) : bool :=
  match raw with
  | EmptyString => false
  | String _ _ => true
  end.

(** How the [for line in resp.iter_lines(...)] statement is left. *)
Inductive for_exit : Type :=
| ForEnd                 (* every line given was consumed *)
| ForBreak               (* [break]: the flag was found false *)
| ForRaise (e : exn).

Fixpoint for_lines (self : StreamApi) (return_json : bool) (lines : list line)
  : for_exit * StreamApi * list event :=
  match lines with
  | [] => (ForEnd, self, [])
  | ln :: rest =>
      let '(raised, evs) :=
        if nonempty (ln_raw ln)
        then on_data (ln_raw ln) return_json (ln_callback ln)
        else on_keep_alive (ln_callback ln) in
      match raised with
      | Some e => (ForRaise e, self, evs)
      | None =>
          let self := lands (ln_disconnect ln) self in
          if negb (running self) then (ForBreak, self, evs)
          else
            let '(how, self, evs') := for_lines self return_json rest in
            (how, self, evs ++ evs')
      end
  end.

(** How one pass through the body of the [while] is left. *)
Inductive signal : Type :=
| Continue
| Break
| Raise (e : exn).

Definition while_body (self : StreamApi) (url : string) (return_json : bool)
           (loc : locals) (r : response)
  : signal * StreamApi * locals * list event :=
  match r with
  | GetRaises e => (Raise e, self, loc, [EvGet url])
  | Response status_code disconnected error_callback lines fin =>
      let self := lands disconnected self in
      if status_code =? 200 then
        match for_lines self return_json lines with
        | (ForRaise e, self, evs) =>
            (Raise e, self, loc, EvGet url :: EvHeaders :: evs)
        | (ForBreak, self, evs) =>
            (Continue, self, loc, EvGet url :: EvHeaders :: evs)
        | (ForEnd, self, evs) =>
            match fin with
            | StreamCloses late =>
                (Continue, lands late self, loc, EvGet url :: EvHeaders :: evs)
            | StreamRaises e =>
                (Raise e, self, loc, EvGet url :: EvHeaders :: evs)
            end
        end
      else
        match on_request_error error_callback status_code with
        | (Some e, evs) => (Raise e, self, loc, EvGet url :: evs)
        | (None, evs) =>
            let slept := http_error_wait loc in
            let loc := {| retries := retries loc + 1;
                          http_error_wait := http_error_wait loc * 2 |} in
            (if http_error_wait loc >? http_error_wait_max
             then Break else Continue,
             self, loc, EvGet url :: evs ++ [EvSleep slept])
        end
  end.

(** How a call ends.  [Blocks]: the script is used up while the loop asks
    the transport for another connection, so the call has not come back. *)
Inductive outcome : Type :=
| Returns
| Raises (e : exn)
| Blocks.

(** [while self.running and retries < self.max_retries: ...] *)
Fixpoint while_loop (self : StreamApi) (url : string) (return_json : bool)
         (loc : locals) (script : list response)
  : outcome * StreamApi * locals * list event :=
  if running self && (retries loc <? max_retries self) then
    match script with
    | [] => (Blocks, self, loc, [])
    | r :: rest =>
        match while_body self url return_json loc r with
        | (Continue, self, loc, evs) =>
            let '(out, self, loc, evs') :=
              while_loop self url return_json loc rest in
            (out, self, loc, evs ++ evs')
        | (Break, self, loc, evs) => (Returns, self, loc, evs)
        | (Raise e, self, loc, evs) => (Raises e, self, loc, evs)
        end
    end
  else (Returns, self, loc, []).

(** The result of a top-level call: the controller afterwards, the last
    values of the locals (kept for the proofs) and the events. *)
Record run : Type := {
  ended : outcome;
  api : StreamApi;
  vars : locals;
  trace : list event
}.

(** [finally: self.session.close(); self.running = False] *)
Definition finally (self : StreamApi) : StreamApi :=
  set_running false (session_close self).

(** [try: ... except Exception as exc: logger.exception(...) finally: ...]
    around the loop. *)
Definition guarded (loop : outcome * StreamApi * locals * list event) : run :=
  match loop with
  | (Blocks, self, loc, evs) =>
      {| ended := Blocks; api := self; vars := loc; trace := evs |}
  | (Returns, self, loc, evs) =>
      {| ended := Returns; api := finally self; vars := loc;
         trace := evs ++ [EvClose] |}
  | (Raises e, self, loc, evs) =>
      if is_Exception e then
        {| ended := Returns; api := finally self; vars := loc;
           trace := evs ++ [EvLog e; EvClose] |}
      else
        {| ended := Raises e; api := finally self; vars := loc;
           trace := evs ++ [EvClose] |}
  end.

Definition _connect (self : StreamApi) (url : string) (return_json : bool)
           (script : list response) : run :=
  if negb (_auth self) then
    {| ended := Raises (PyTwitterError (JString "Need auth"));
       api := self; vars := initial_locals; trace := [] |}
  else
    (* make sure only one running connect *)
    let self := set_running true self in
    guarded (while_loop self url return_json initial_locals script).

(** [sample]: [invalid_fields] is what [enf_comma_separated] raises on the
    field arguments, if anything. *)
Definition sample (self : StreamApi) (invalid_fields : option exn)
           (return_json : bool) (script : list response) : run :=
  if running self then
    {| ended := Raises (PyTwitterError (JString "Stream is running"));
       api := self; vars := initial_locals; trace := [] |}
  else
    match invalid_fields with
    | Some e =>
        {| ended := Raises e; api := self; vars := initial_locals; trace := [] |}
    | None =>
        _connect self (BASE_URL ++ "/tweets/sample/stream")%string return_json script
    end.

(** *** Reading a trace *)

(** The handling of one line, as the body of the [for] does it. *)
Definition handle (return_json : bool) (ln : line) : call :=
  if nonempty (ln_raw ln)
  then on_data (ln_raw ln) return_json (ln_callback ln)
  else on_keep_alive (ln_callback ln).

(** A line during which nobody disconnects and whose handling returns. *)
Definition delivered (return_json : bool) (ln : line) : bool :=
  negb (ln_disconnect ln) &&
  match fst (handle return_json ln) with
  | None => true
  | Some _ => false
  end.

Definition blank (ln : line) : bool := negb (nonempty (ln_raw ln)).

(** The message a payload line stands for: the parsed payload itself, or,
    when [return_json] is set, the model of its [data] field. *)
Definition message_of (return_json : bool) (raw : string) : option tweet_arg :=
  match json_loads raw with
  | None => None
  | Some data =>
      if return_json then
        match py_getitem data "data" with
        | inl _ => None
        | inr inner =>
            match new_from_json_dict inner with
            | inl _ => None
            | inr tweet => Some (Typed tweet)
            end
        end
      else Some (Raw data)
  end.

(** The callback a line of the wire calls for, with its argument. *)
Definition dispatch_of (return_json : bool) (ln : line) : option event :=
  if nonempty (ln_raw ln)
  then option_map EvTweet (message_of return_json (ln_raw ln))
  else Some EvKeepAlive.


Definition is_get (ev : event) : bool :=
  match ev with EvGet _ => true | _ => false end.

Definition is_tweet (ev : event) : bool :=
  match ev with EvTweet _ => true | _ => false end.

Definition is_keep_alive (ev : event) : bool :=
  match ev with EvKeepAlive => true | _ => false end.

Definition is_callback (ev : event) : bool :=
  is_tweet ev || is_keep_alive ev.

Definition count (p : event -> bool) (t : list event) : nat :=
  List.length (filter p t).

(** The delays passed to [time.sleep], in order. *)
Definition sleeps (t : list event) : list Z :=
  flat_map (fun ev => match ev with EvSleep s => [s] | _ => [] end) t.

End Streaming.

Arguments Raw {Tweet} data.
Arguments Typed {Tweet} tweet.
Arguments EvGet {Tweet} url.
Arguments EvHeaders {Tweet}.
Arguments EvTweet {Tweet} tweet.
Arguments EvKeepAlive {Tweet}.
Arguments EvRequestError {Tweet} status_code.
Arguments EvSleep {Tweet} seconds.
Arguments EvLog {Tweet} e.
Arguments EvClose {Tweet}.
Arguments ended {Tweet} r.
Arguments api {Tweet} r.
Arguments vars {Tweet} r.
Arguments trace {Tweet} r.
Arguments is_get {Tweet} ev.
Arguments is_tweet {Tweet} ev.
Arguments is_keep_alive {Tweet} ev.
Arguments is_callback {Tweet} ev.
Arguments count {Tweet} p t.
Arguments sleeps {Tweet} t.

(** ** A concrete environment for the examples

    The lines used in the examples, with the values [json.loads] gives for
    them; any other line stands for bytes that are not JSON.  The typed model
    of a tweet is represented by the dict it was built from. *)

Module Wire.

Definition q : string := String "034"%char EmptyString.

Definition tweet_line : string :=
  ("{" ++ q ++ "data" ++ q ++ ": {" ++ q ++ "id" ++ q ++ ": 1}}")%string.

Definition errors_line : string :=
  ("{" ++ q ++ "errors" ++ q ++ ": [" ++ q ++ "stream closed" ++ q ++ "]}")%string.

Definition garbage_line : string := "<html>".

Definition tweet_json : json := JObject [("data", JObject [("id", JNumber 1)])].

Definition errors_json : json := JObject [("errors", JArray [JString "stream closed"])].

Definition json_loads (raw : string) : option json :=
  if String.eqb raw tweet_line then Some tweet_json
  else if String.eqb raw errors_line then Some errors_json
  else None.

Definition new_from_json_dict (data : json) : result json :=
  match data with
  | JObject _ => inr data
  | _ => inl TypeError
  end.

Definition controller (budget : Z) : StreamApi :=
  {| running := false; _auth := true; max_retries := budget;
     session_closed := false |}.

Definition tweet : line :=
  {| ln_raw := tweet_line; ln_callback := None; ln_disconnect := false |}.

Definition keep_alive : line :=
  {| ln_raw := ""; ln_callback := None; ln_disconnect := false |}.

Definition errors : line :=
  {| ln_raw := errors_line; ln_callback := None; ln_disconnect := false |}.

Definition garbage : line :=
  {| ln_raw := garbage_line; ln_callback := None; ln_disconnect := false |}.

Definition ok (lines : list line) : response :=
  Response 200 false None lines (StreamCloses false).

Definition refused (status_code : Z) : response :=
  Response status_code false None [] (StreamCloses false).

Definition connect := _connect json json_loads new_from_json_dict.

Definition url : string := (BASE_URL ++ "/tweets/sample/stream")%string.

Definition last_tweet : line :=
  {| ln_raw := tweet_line; ln_callback := None; ln_disconnect := true |}.

Definition interrupted_tweet : line :=
  {| ln_raw := tweet_line; ln_callback := Some KeyboardInterrupt;
     ln_disconnect := false |}.

Definition failing_tweet : line :=
  {| ln_raw := tweet_line; ln_callback := Some (UserError "boom");
     ln_disconnect := false |}.

Definition started (budget : Z) : StreamApi :=
  set_running true (controller budget).

End Wire.


(** ** Building a controller: [StreamApi.__init__] and [generate_bearer_token]

    The token endpoint is part of the environment: [reply] is what
    [requests.post] gives, an exception or the bytes of the body.
    [base64.b64encode] and [json.loads] are taken as given. *)

Module Construct.

(** One call of [requests.post]. *)
Record post : Type := {
  post_url : string;
  post_data : list (string * string);
  post_headers : list (string * string)
}.

(** The [Authorization] header of a POST. *)
Definition lookup_header (p : post) : option string :=
  match filter (fun kv => String.eqb (fst kv) "Authorization") (post_headers p) with
  | kv :: _ => Some (snd kv)
  | [] => None
  end.

(** Python truth of an optional str argument, and its text. *)
Definition truthy (v : option string) : bool :=
  match v with
  | Some s => nonempty s
  | None => false
  end.

Definition text (v : option string) : string :=
  match v with
  | Some s => s
  | None => ""
  end.

Definition with_auth (self : StreamApi) : StreamApi :=
  {| running := running self;
     _auth := true;
     max_retries := max_retries self;
     session_closed := session_closed self |}.

Section Construct.

Variable b64encode : string -> string.
Variable json_loads : string -> option json.

Definition generate_bearer_token (consumer_key consumer_secret : string)
           (reply : result string) : result json * list post :=
  let bearer_token := b64encode (consumer_key ++ ":" ++ consumer_secret)%string in
  let headers :=
    [("Authorization", ("Basic " ++ bearer_token)%string);
     ("Content-Type", "application/x-www-form-urlencoded;charset=UTF-8")] in
  let sent :=
    {| post_url := "https://api.twitter.com/oauth2/token";
       post_data := [("grant_type", "client_credentials")];
       post_headers := headers |} in
  (content <- reply ;;
   data <- loads json_loads content ;;
   has_errors <- py_in "errors" data ;;
   if has_errors : bool then
     message <- py_getitem data "errors" ;;
     inl (PyTwitterError message)
   else inr data,
   [sent]).

(** [__init__] gives the controller and the access token put into its
    [OAuth2] object.  [proxies], [timeout] and [chunk_size] are only handed
    on to the transport. *)
Definition __init__ (bearer_token consumer_key consumer_secret : option string)
           (max_retries : Z) (reply : result string)
  : result (StreamApi * json) * list post :=
  let self :=
    {| running := false; _auth := false; max_retries := max_retries;
       session_closed := false |} in
  if truthy bearer_token then
    (inr (with_auth self, JString (text bearer_token)), [])
  else if forallb truthy [consumer_key; consumer_secret] then
    let '(resp, sent) :=
      generate_bearer_token (text consumer_key) (text consumer_secret) reply in
    (data <- resp ;;
     token <- py_getitem data "access_token" ;;
     inr (with_auth self, token),
     sent)
  else (inl (PyTwitterError (JString "Need oauth")), []).

End Construct.

End Construct.

(** ** The REST client: [pytwitter.api.Api]

    One call makes at most one HTTP request; [reply] is what
    [session.request] gives for it, an exception or the bytes of the body. *)

Module Rest.

(** What a call may raise: a bare [Exception(message)], or one of the
    exceptions above. *)
Inductive raised : Type :=
| PlainException (message : string)
| Known (e : exn).

Definition answer (A : Type) : Type := (raised + A)%type.

Definition known {A : Type} (m : result A) : answer A :=
  match m with
  | inl e => inl (Known e)
  | inr a => inr a
  end.

Definition and_then {A B : Type} (m : answer A) (k : A -> answer B) : answer B :=
  match m with
  | inl e => inl e
  | inr a => k a
  end.

Notation "x <~ m ;; k" := (and_then m (fun x => k))
  (at level 61, m at next level, right associativity).

Record Api : Type := {
  _auth : bool                (* [self._auth] is set *)
}.

Definition BASE_URL_V2 : string := "https://api.twitter.com/2".

Definition __init__
           (bearer_token consumer_key consumer_secret
            access_token access_secret : option string)
           (application_only_auth oauth_flow : bool) : answer Api :=
  let self := {| _auth := false |} in
  (* just use bearer token *)
  if Construct.truthy bearer_token then inr {| _auth := true |}
  (* use app auth *)
  else if Construct.truthy consumer_key && Construct.truthy consumer_secret
          && application_only_auth then inr self
  (* use user auth *)
  else if forallb Construct.truthy
            [consumer_key; consumer_secret; access_token; access_secret]
       then inr self
  (* use oauth flow by hand *)
  else if Construct.truthy consumer_key && Construct.truthy consumer_secret
          && oauth_flow then inr self
  else inl (PlainException "Need oauth").

(** [for d in data] *)
Definition py_iter (data : json) : result (list json) :=
  match data with
  | JArray items => inr items
  | JObject fields => inr (map (fun kv => JString (fst kv)) fields)
  | JString s =>
      inr (map (fun c => JString (String c EmptyString)) (list_ascii_of_string s))
  | JNull | JBool _ | JNumber _ => inl TypeError
  end.

(** [data.get("includes")] on a dict. *)
Definition includes_of (fields : list (string * json)) : json :=
  match lookup "includes" fields with
  | Some includes => includes
  | None => JNull
  end.

(** [data["data"], data.get("includes")]: the subscript is evaluated first,
    so [get] is only reached on a dict. *)
Definition data_and_includes (data : json) : result (json * json) :=
  inner <- py_getitem data "data" ;;
  match data with
  | JObject fields =>
      inr (inner,
            match lookup "includes" fields with
            | Some includes => includes
            | None => JNull
            end)
  | _ => inl TypeError
  end.

Fixpoint comprehension {A : Type} (f : json -> result A) (items : list json)
  : result (list A) :=
  match items with
  | [] => inr []
  | d :: rest =>
      a <- f d ;;
      others <- comprehension f rest ;;
      inr (a :: others)
  end.

Section Rest.

(** [enf_comma_separated], the models [md.User] and [md.Includes],
    [json.loads] and the [repr] of bytes are taken as given. *)
Variable field : Type.
Variable param : Type.
Variable enf_comma_separated : string -> field -> result param.
Variable User : Type.
Variable Includes : Type.
Variable User_new_from_json_dict : json -> result User.
Variable Includes_new_from_json_dict : json -> result Includes.
Variable json_loads : string -> option json.
Variable repr : string -> string.

(** One call of [session.request]. *)
Record request : Type := {
  rq_url : string;
  rq_verb : string;
  rq_params : option (list (string * param));
  rq_data : option (list (string * param));
  rq_auth : bool
}.

Definition _request (self : Api) (url verb : string)
           (params data : option (list (string * param)))
           (enforce_auth : bool) (reply : result string)
  : answer string * list request :=
  if enforce_auth && negb (_auth self) then
    (inl (PlainException "The twitter.Api instance must be authenticated."), [])
  else
    (known reply,
     [{| rq_url := url; rq_verb := verb; rq_params := params;
         rq_data := data; rq_auth := enforce_auth |}]).

(** The requests of [users_by_ids] and [user_by_id] for validated fields. *)
Definition users_request (a1 a2 a3 a4 : param) : request :=
  {| rq_url := (BASE_URL_V2 ++ "/users")%string;
     rq_verb := "GET";
     rq_params :=
       Some [("ids", a1); ("user.fields", a2); ("tweet.fields", a3);
             ("expansions", a4)];
     rq_data := None;
     rq_auth := true |}.

Definition user_request (user_id : string) (a1 a2 a3 : param) : request :=
  {| rq_url := (BASE_URL_V2 ++ "/users/" ++ user_id)%string;
     rq_verb := "GET";
     rq_params :=
       Some [("user.fields", a1); ("tweet.fields", a2); ("expansions", a3)];
     rq_data := None;
     rq_auth := true |}.

Definition _parse_response (content : string) : answer json :=
  match json_loads content with
  | None =>
      inl (Known (PyTwitterError
                    (JString ("Unknown error: " ++ repr content)%string)))
  | Some data =>
      known (has_errors <- py_in "errors" data ;;
             if has_errors : bool then
               message <- py_getitem data "errors" ;;
               inl (PyTwitterError message)
             else inr data)
  end.

(** What a lookup returns: the raw pair, or the models. *)
Inductive returned (T : Type) : Type :=
| RawPair (data includes : json)
| Models (found : T) (includes : Includes).

Definition users_by_ids (self : Api)
           (ids user_fields tweet_fields expansions : field)
           (return_json : bool) (reply : result string)
  : answer (returned (list User)) * list request :=
  let args :=
    a1 <- enf_comma_separated "ids" ids ;;
    a2 <- enf_comma_separated "user_fields" user_fields ;;
    a3 <- enf_comma_separated "tweet_fields" tweet_fields ;;
    a4 <- enf_comma_separated "expansions" expansions ;;
    inr [("ids", a1); ("user.fields", a2); ("tweet.fields", a3);
         ("expansions", a4)] in
  match args with
  | inl e => (inl (Known e), [])
  | inr args =>
      let '(resp, sent) :=
        _request self (BASE_URL_V2 ++ "/users")%string "GET" (Some args) None
                 true reply in
      (content <~ resp ;;
       data <~ _parse_response content ;;
       pair <~ known (data_and_includes data) ;;
       let '(data, includes) := pair in
       if return_json then inr (RawPair (list User) data includes)
       else
         known (items <- py_iter data ;;
                users <- comprehension User_new_from_json_dict items ;;
                includes <- Includes_new_from_json_dict includes ;;
                inr (Models (list User) users includes)),
       sent)
  end.

Definition user_by_id (self : Api) (user_id : string)
           (user_fields tweet_fields expansions : field)
           (return_json : bool) (reply : result string)
  : answer (returned User) * list request :=
  let args :=
    a1 <- enf_comma_separated "user_fields" user_fields ;;
    a2 <- enf_comma_separated "tweet_fields" tweet_fields ;;
    a3 <- enf_comma_separated "expansions" expansions ;;
    inr [("user.fields", a1); ("tweet.fields", a2); ("expansions", a3)] in
  match args with
  | inl e => (inl (Known e), [])
  | inr args =>
      let '(resp, sent) :=
        _request self (BASE_URL_V2 ++ "/users/" ++ user_id)%string "GET"
                 (Some args) None true reply in
      (content <~ resp ;;
       data <~ _parse_response content ;;
       pair <~ known (data_and_includes data) ;;
       let '(data, includes) := pair in
       if return_json then inr (RawPair User data includes)
       else
         known (user <- User_new_from_json_dict data ;;
                includes <- Includes_new_from_json_dict includes ;;
                inr (Models User user includes)),
       sent)
  end.

End Rest.

End Rest.

(** ** More ways to read a run *)

(** The delays a call can sleep, in the order it sleeps them. *)
Definition schedule : list Z := [5; 10; 20; 40; 80; 160; 320].

(** Two controllers with the same credential, budget and session. *)
Definition same_settings (self self' : StreamApi) : Prop :=
  _auth self' = _auth self /\
  max_retries self' = max_retries self /\
  session_closed self' = session_closed self.

(** A stream with a success status during which nobody disconnects, whose
    lines are all handled and which the server then closes. *)
Definition closed_stream {Tweet : Type} (json_loads : string -> option json)
           (new_from_json_dict : json -> result Tweet) (return_json : bool)
           (r : response) : bool :=
  match r with
  | Response status_code disconnected _ lines (StreamCloses late) =>
      (status_code =? 200) && negb disconnected && negb late &&
      forallb (delivered Tweet json_loads new_from_json_dict return_json) lines
  | _ => false
  end.

(** What [on_tweet] may be given: not a raw payload that has ["errors"]. *)
Definition clean_tweet {Tweet : Type} (ev : event Tweet) : Prop :=
  match ev with
  | EvTweet (Raw data) => py_in "errors" data = inr false
  | _ => True
  end.

(** The form in which a call hands tweets to [on_tweet]. *)
Definition tweet_form {Tweet : Type} (return_json : bool) (ev : event Tweet)
  : Prop :=
  match ev with
  | EvTweet (Raw _) => return_json = false
  | EvTweet (Typed _) => return_json = true
  | _ => True
  end.


(** The status codes passed to [on_request_error], in order. *)
Definition request_errors {Tweet : Type} (t : list (event Tweet)) : list Z :=
  flat_map (fun ev => match ev with EvRequestError s => [s] | _ => [] end) t.

(** What one connection attempt calls for: the status [on_request_error] is
    given, whether the backoff sleep follows, whether the callback raised
    instead. *)
Definition refused_status (r : response) : list Z :=
  match r with
  | Response status_code _ _ _ _ =>
      if status_code =? 200 then [] else [status_code]
  | GetRaises _ => []
  end.

Definition slept_after (r : response) : bool :=
  match r with
  | Response status_code _ None _ _ => negb (status_code =? 200)
  | _ => false
  end.

Definition callback_raised (r : response) : bool :=
  match r with
  | Response status_code _ (Some _) _ _ => negb (status_code =? 200)
  | _ => false
  end.


Definition status_of (r : response) : Z :=
  match r with
  | Response status_code _ _ _ _ => status_code
  | GetRaises _ => 0
  end.


(** ** A concrete environment for the constructor and the REST client

    [base64.b64encode] written out, the bodies used in the examples with the
    values [json.loads] gives for them, and stand-ins for the validators and
    models of the package: a field is an optional list of names, joined with
    commas; a model is represented by the JSON it is built from. *)

Module Desk.

Definition alphabet : string :=
  "ABCDEFGHIJKLMNOPQRSTUVWXYZabcdefghijklmnopqrstuvwxyz0123456789+/".

Definition sextet (n : N) : ascii :=
  match String.get (N.to_nat n) alphabet with
  | Some c => c
  | None => "="%char
  end.

Fixpoint b64 (bytes : list N) : string :=
  match bytes with
  | [] => ""
  | [a] =>
      let n := (a * 65536)%N in
      String (sextet (n / 262144))
        (String (sextet ((n / 4096) mod 64)) "==")
  | [a; b] =>
      let n := (a * 65536 + b * 256)%N in
      String (sextet (n / 262144))
        (String (sextet ((n / 4096) mod 64))
           (String (sextet ((n / 64) mod 64)) "="))
  | a :: b :: c :: rest =>
      let n := (a * 65536 + b * 256 + c)%N in
      String (sextet (n / 262144))
        (String (sextet ((n / 4096) mod 64))
           (String (sextet ((n / 64) mod 64))
              (String (sextet (n mod 64)) (b64 rest))))
  end.

Definition b64encode (s : string) : string :=
  b64 (map N_of_ascii (list_ascii_of_string s)).

Definition q : string := String "034"%char EmptyString.

(** Replies of the token endpoint. *)
Definition token_body : string :=
  ("{" ++ q ++ "token_type" ++ q ++ ": " ++ q ++ "bearer" ++ q ++ ", " ++
   q ++ "access_token" ++ q ++ ": " ++ q ++ "AAAA" ++ q ++ "}")%string.

Definition token_json : json :=
  JObject [("token_type", JString "bearer"); ("access_token", JString "AAAA")].

Definition refused_body : string :=
  ("{" ++ q ++ "errors" ++ q ++ ": [" ++ q ++ "invalid client" ++ q ++ "]}")%string.

Definition refused_json : json :=
  JObject [("errors", JArray [JString "invalid client"])].

(** Replies of the users endpoint. *)
Definition users_body : string :=
  ("{" ++ q ++ "data" ++ q ++ ": [{" ++ q ++ "id" ++ q ++ ": 1}, {" ++
   q ++ "id" ++ q ++ ": 2}]}")%string.

Definition users_json : json :=
  JObject [("data", JArray [JObject [("id", JNumber 1)];
                            JObject [("id", JNumber 2)]])].

Definition user_body : string :=
  ("{" ++ q ++ "data" ++ q ++ ": {" ++ q ++ "id" ++ q ++ ": 1}, " ++
   q ++ "includes" ++ q ++ ": {" ++ q ++ "tweets" ++ q ++ ": []}}")%string.

Definition user_json : json :=
  JObject [("data", JObject [("id", JNumber 1)]);
           ("includes", JObject [("tweets", JArray [])])].

Definition json_loads (raw : string) : option json :=
  if String.eqb raw token_body then Some token_json
  else if String.eqb raw refused_body then Some refused_json
  else if String.eqb raw users_body then Some users_json
  else if String.eqb raw user_body then Some user_json
  else None.

Definition repr (content : string) : string := ("b'" ++ content ++ "'")%string.

Definition enf_comma_separated (name : string) (value : option (list string))
  : result (option string) :=
  match value with
  | None => inr None
  | Some names => inr (Some (String.concat "," names))
  end.

Definition User_new_from_json_dict (data : json) : result json :=
  match data with
  | JObject _ => inr data
  | _ => inl TypeError
  end.

Definition Includes_new_from_json_dict (data : json) : result json := inr data.

Definition init := Construct.__init__ b64encode json_loads.

Definition users_by_ids :=
  Rest.users_by_ids (option (list string)) (option string) enf_comma_separated
    json json User_new_from_json_dict Includes_new_from_json_dict
    json_loads repr.

Definition user_by_id :=
  Rest.user_by_id (option (list string)) (option string) enf_comma_separated
    json json User_new_from_json_dict Includes_new_from_json_dict
    json_loads repr.

Definition client : Rest.Api := {| Rest._auth := true |}.

End Desk.


(** ** Properties of the connection lifecycle *)

Section Properties.

Variable Tweet : Type.
Variable json_loads : string -> option json.
Variable new_from_json_dict : json -> result Tweet.

Local Notation on_data := (on_data Tweet json_loads new_from_json_dict).
Local Notation for_lines := (for_lines Tweet json_loads new_from_json_dict).
Local Notation while_body := (while_body Tweet json_loads new_from_json_dict).
Local Notation while_loop := (while_loop Tweet json_loads new_from_json_dict).
Local Notation _connect := (_connect Tweet json_loads new_from_json_dict).
Local Notation sample := (sample Tweet json_loads new_from_json_dict).
Local Notation event := (event Tweet).
Local Notation handle := (handle Tweet json_loads new_from_json_dict).
Local Notation delivered := (delivered Tweet json_loads new_from_json_dict).
Local Notation message_of := (message_of Tweet json_loads new_from_json_dict).
Local Notation dispatch_of := (dispatch_of Tweet json_loads new_from_json_dict).
Local Notation closed_stream := (closed_stream json_loads new_from_json_dict).

(** *** The loops, one step at a time *)

Lemma for_lines_cons self return_json ln rest :
  for_lines self return_json (ln :: rest) =
  match handle return_json ln with
  | (Some e, evs) => (ForRaise e, self, evs)
  | (None, evs) =>
      if negb (running (lands (ln_disconnect ln) self))
      then (ForBreak, lands (ln_disconnect ln) self, evs)
      else
        let '(how, self', evs') :=
          for_lines (lands (ln_disconnect ln) self) return_json rest in
        (how, self', evs ++ evs')
  end.
Proof.
  unfold handle. simpl.
  destruct (if nonempty (ln_raw ln) then _ else _) as [[e|] evs]; reflexivity.
Qed.

Lemma while_loop_nil self url return_json loc :
  while_loop self url return_json loc [] =
  if running self && (retries loc <? max_retries self)
  then (Blocks, self, loc, [])
  else (Returns, self, loc, []).
Proof. reflexivity. Qed.

Lemma while_loop_cons self url return_json loc r rest :
  while_loop self url return_json loc (r :: rest) =
  if running self && (retries loc <? max_retries self) then
    match while_body self url return_json loc r with
    | (Continue, self', loc', evs) =>
        let '(out, self'', loc'', evs') :=
          while_loop self' url return_json loc' rest in
        (out, self'', loc'', evs ++ evs')
    | (Break, self', loc', evs) => (Returns, self', loc', evs)
    | (Raise e, self', loc', evs) => (Raises e, self', loc', evs)
    end
  else (Returns, self, loc, []).
Proof. reflexivity. Qed.

Lemma for_lines_app self return_json ls1 ls2 :
  for_lines self return_json (ls1 ++ ls2) =
  match for_lines self return_json ls1 with
  | (ForEnd, self', evs) =>
      let '(how, self'', evs') := for_lines self' return_json ls2 in
      (how, self'', evs ++ evs')
  | stopped => stopped
  end.
Proof.
  revert self. induction ls1 as [|ln ls1 IH]; intros self.
  - simpl. destruct (for_lines self return_json ls2) as [[how s] evs].
    reflexivity.
  - rewrite <- app_comm_cons, !for_lines_cons.
    destruct (handle return_json ln) as [[e|] evs]; [reflexivity|].
    destruct (negb (running (lands (ln_disconnect ln) self))); [reflexivity|].
    rewrite IH.
    destruct (for_lines (lands (ln_disconnect ln) self) return_json ls1)
      as [[[| |e] s1] evs1]; try reflexivity.
    destruct (for_lines s1 return_json ls2) as [[how s2] evs2].
    rewrite app_assoc. reflexivity.
Qed.

Lemma while_loop_app self url return_json loc pre rest :
  while_loop self url return_json loc (pre ++ rest) =
  match while_loop self url return_json loc pre with
  | (Blocks, self', loc', evs) =>
      let '(out, self'', loc'', evs') :=
        while_loop self' url return_json loc' rest in
      (out, self'', loc'', evs ++ evs')
  | finished => finished
  end.
Proof.
  revert self loc. induction pre as [|r pre IH]; intros self loc.
  - rewrite while_loop_nil. simpl.
    destruct (running self && (retries loc <? max_retries self)) eqn:Hc.
    + destruct (while_loop self url return_json loc rest) as [[[out s] l] evs].
      reflexivity.
    + destruct rest; simpl; rewrite Hc; reflexivity.
  - rewrite <- app_comm_cons, !while_loop_cons.
    destruct (running self && (retries loc <? max_retries self));
      [|reflexivity].
    destruct (while_body self url return_json loc r)
      as [[[[| |e] s1] l1] evs1]; try reflexivity.
    rewrite IH.
    destruct (while_loop s1 url return_json l1 pre)
      as [[[[|e|] s2] l2] evs2]; try reflexivity.
    destruct (while_loop s2 url return_json l2 rest) as [[[out s3] l3] evs3].
    rewrite app_assoc. reflexivity.
Qed.

(** A loop that is still asking for a connection has its flag up and budget
    left. *)
Lemma while_loop_blocks self url return_json loc script self' loc' evs :
  while_loop self url return_json loc script = (Blocks, self', loc', evs) ->
  running self' = true /\ retries loc' < max_retries self'.
Proof.
  revert self loc evs. induction script as [|r script IH]; intros self loc evs.
  - rewrite while_loop_nil.
    destruct (running self && (retries loc <? max_retries self)) eqn:Hc;
      [|discriminate].
    intros H; inversion H; subst.
    apply andb_true_iff in Hc. destruct Hc as [Hr Hb].
    split; [assumption | apply Z.ltb_lt; assumption].
  - rewrite while_loop_cons.
    destruct (running self && (retries loc <? max_retries self));
      [|discriminate].
    destruct (while_body self url return_json loc r)
      as [[[[| |e] s1] l1] evs1]; try discriminate.
    destruct (while_loop s1 url return_json l1 script)
      as [[[out s2] l2] evs2] eqn:Hw.
    intros H; inversion H; subst. eapply IH; eassumption.
Qed.

(** *** What the handlers leave in the trace *)

Lemma handle_cases return_json ln :
  (nonempty (ln_raw ln) = false /\
   handle return_json ln = (ln_callback ln, [EvKeepAlive])) \/
  (nonempty (ln_raw ln) = true /\
   ((exists e, handle return_json ln = (Some e, [])) \/
    (exists tweet, handle return_json ln = (ln_callback ln, [EvTweet tweet])))).
Proof.
  unfold handle. destruct (nonempty (ln_raw ln)).
  - right. split; [reflexivity|]. unfold on_data, on_tweet.
    match goal with
    | |- context [match ?p with inl _ => _ | inr _ => _ end] =>
        destruct p as [e|tweet]
    end.
    + left. exists e. reflexivity.
    + right. exists tweet. reflexivity.
  - left. split; reflexivity.
Qed.

Lemma handle_events return_json ln :
  Forall (fun ev => is_callback ev = true) (snd (handle return_json ln)).
Proof.
  destruct (handle_cases return_json ln)
    as [[_ H]|[_ [[e H]|[tweet H]]]]; rewrite H; simpl;
    repeat constructor.
Qed.

Lemma for_lines_events self return_json lines :
  Forall (fun ev => is_callback ev = true)
         (snd (for_lines self return_json lines)).
Proof.
  revert self. induction lines as [|ln lines IH]; intros self.
  - constructor.
  - rewrite for_lines_cons.
    pose proof (handle_events return_json ln) as Hh.
    destruct (handle return_json ln) as [[e|] evs]; simpl in *;
      [assumption|].
    destruct (negb (running (lands (ln_disconnect ln) self)));
      [assumption|].
    specialize (IH (lands (ln_disconnect ln) self)).
    destruct (for_lines (lands (ln_disconnect ln) self) return_json lines)
      as [[how s] evs'].
    simpl in *. apply Forall_app. split; assumption.
Qed.

Lemma sleeps_app (t1 t2 : list event) :
  sleeps (t1 ++ t2) = sleeps t1 ++ sleeps t2.
Proof. apply flat_map_app. Qed.

Lemma count_app (p : event -> bool) (t1 t2 : list event) :
  count p (t1 ++ t2) = (count p t1 + count p t2)%nat.
Proof. unfold count. rewrite filter_app, length_app. reflexivity. Qed.

Lemma callbacks_no_sleep (t : list event) :
  Forall (fun ev => is_callback ev = true) t -> sleeps t = [].
Proof.
  induction 1 as [|ev t Hev _ IH]; [reflexivity|].
  destruct ev; try discriminate; exact IH.
Qed.

Lemma callbacks_no_get (t : list event) :
  Forall (fun ev => is_callback ev = true) t -> count is_get t = 0%nat.
Proof.
  induction 1 as [|ev t Hev _ IH]; [reflexivity|].
  destruct ev; try discriminate; exact IH.
Qed.

(** *** The retry counter *)

(** One pass through the loop body adds to [retries] the number of sleeps it
    made, whatever the status. *)
Lemma while_body_retries self url return_json loc r :
  let '(_, _, loc', evs) := while_body self url return_json loc r in
  retries loc' = retries loc + Z.of_nat (List.length (sleeps evs)).
Proof.
  destruct r as [e|status d cb lines fin]; simpl; [lia|].
  destruct (status =? 200).
  - pose proof (for_lines_events (lands d self) return_json lines) as Hev.
    apply callbacks_no_sleep in Hev.
    destruct (for_lines (lands d self) return_json lines)
      as [[[| |e] s] evs]; simpl in *; try (rewrite Hev; simpl; lia).
    destruct fin; simpl; rewrite Hev; simpl; lia.
  - destruct cb as [e|]; simpl; lia.
Qed.

Lemma while_loop_retries self url return_json loc script :
  let '(_, _, loc', evs) := while_loop self url return_json loc script in
  retries loc' = retries loc + Z.of_nat (List.length (sleeps evs)).
Proof.
  revert self loc. induction script as [|r script IH]; intros self loc.
  - rewrite while_loop_nil.
    destruct (running self && (retries loc <? max_retries self)); simpl; lia.
  - rewrite while_loop_cons.
    destruct (running self && (retries loc <? max_retries self));
      [|simpl; lia].
    pose proof (while_body_retries self url return_json loc r) as Hb.
    destruct (while_body self url return_json loc r)
      as [[[[| |e] s1] l1] evs1]; try exact Hb.
    specialize (IH s1 l1).
    destruct (while_loop s1 url return_json l1 script)
      as [[[out s2] l2] evs2].
    rewrite sleeps_app, length_app. lia.
Qed.

Lemma guarded_sleeps (loop : outcome * StreamApi * locals * list event) :
  sleeps (trace (guarded Tweet loop)) = sleeps (snd loop).
Proof.
  destruct loop as [[[[|e|] s] l] evs]; simpl.
  - rewrite sleeps_app, app_nil_r. reflexivity.
  - destruct (is_Exception e); simpl; rewrite sleeps_app, app_nil_r;
      reflexivity.
  - reflexivity.
Qed.

Lemma guarded_vars (loop : outcome * StreamApi * locals * list event) :
  vars (guarded Tweet loop) = snd (fst loop).
Proof.
  destruct loop as [[[[|e|] s] l] evs]; simpl; try reflexivity.
  destruct (is_Exception e); reflexivity.
Qed.

(** C1 (as the code has it): a 200 response leaves [retries] and
    [http_error_wait] as they were, and at any point of a call [retries] is
    the number of failed attempts (backoff sleeps) made since the call began:
    the counter is never reset, so every failure counts toward
    [max_retries], consecutive or not. *)
Theorem success_keeps_retries :
  (forall self url return_json loc disconnected error_callback lines fin,
      snd (fst (while_body self url return_json loc
                  (Response 200 disconnected error_callback lines fin))) = loc)
  /\
  (forall self url return_json script,
      retries (vars (_connect self url return_json script)) =
      Z.of_nat (List.length (sleeps (trace (_connect self url return_json script))))).
Proof.
  split.
  - intros self url return_json loc d cb lines fin. simpl.
    destruct (for_lines (lands d self) return_json lines)
      as [[[| |e] s] evs]; try reflexivity.
    destruct fin; reflexivity.
  - intros self url return_json script. unfold _connect.
    destruct (negb (_auth self)); [reflexivity|].
    rewrite guarded_sleeps, guarded_vars.
    pose proof (while_loop_retries (set_running true self) url return_json
                  initial_locals script) as H.
    destruct (while_loop (set_running true self) url return_json
                initial_locals script) as [[[out s] l] evs].
    simpl in *. lia.
Qed.


(** *** Backoff *)

Lemma small_cases (k : nat) :
  (k <= 6)%nat ->
  k = 0%nat \/ k = 1%nat \/ k = 2%nat \/ k = 3%nat \/ k = 4%nat \/
  k = 5%nat \/ k = 6%nat.
Proof. lia. Qed.

Ltac by_cases k H :=
  destruct (small_cases k H) as [?|[?|[?|[?|[?|[?|?]]]]]]; subst k.

Lemma backoff_formula_small (k : nat) :
  (k <= 6)%nat -> backoff_formula 5 320 (S k) = 5 * 2 ^ Z.of_nat k.
Proof. intros H. by_cases k H; reflexivity. Qed.

Lemma doubled_over_cap (k : nat) :
  (k <= 6)%nat ->
  (5 * 2 ^ Z.of_nat k * 2 >? http_error_wait_max) = (k =? 6)%nat.
Proof. intros H. by_cases k H; reflexivity. Qed.

Lemma after_failures_step (k : nat) :
  {| retries := retries (after_failures k) + 1;
     http_error_wait := http_error_wait (after_failures k) * 2 |} =
  after_failures (S k).
Proof.
  unfold after_failures. cbn [retries http_error_wait].
  f_equal; [lia|].
  rewrite Nat2Z.inj_succ, Z.pow_succ_r by lia. lia.
Qed.

(** Failed attempts in a row: the loop sleeps [5 * 2^k] after failure [k+1],
    and stops at the budget or once the doubled delay passes the cap. *)
Lemma refusals_loop self url return_json fails :
  running self = true ->
  forallb refusal fails = true ->
  forall k, (k <= 6)%nat ->
  let n := Nat.min (List.length fails)
                   (Nat.min (Z.to_nat (max_retries self)) 7 - k) in
  exists evs,
    while_loop self url return_json (after_failures k) fails =
    (if (List.length fails <? Nat.min (Z.to_nat (max_retries self)) 7 - k)%nat
     then Blocks else Returns,
     self, after_failures (k + n), evs) /\
    sleeps evs = map (backoff_formula 5 320) (seq (S k) n) /\
    count is_get evs = n.
Proof.
  intros Hrun. induction fails as [|r fails IH]; intros Hall k Hk n.
  - rewrite while_loop_nil, Hrun. subst n. simpl andb.
    replace (k + Nat.min (List.length (@nil response)) _)%nat with k
      by (simpl; lia).
    simpl retries. exists []. simpl List.length.
    destruct (Z.ltb_spec (Z.of_nat k) (max_retries self)).
    + replace (0 <? _)%nat with true
        by (symmetry; apply Nat.ltb_lt; lia).
      repeat split.
    + replace (0 <? _)%nat with false
        by (symmetry; apply Nat.ltb_ge; lia).
      repeat split.
  - simpl in Hall. apply andb_true_iff in Hall. destruct Hall as [Hr Hall].
    rewrite while_loop_cons, Hrun. simpl andb. simpl retries.
    destruct (Z.ltb_spec (Z.of_nat k) (max_retries self)) as [Hlt|Hge].
    + destruct r as [e|status d cb lines fin]; [discriminate|].
      destruct d; [discriminate|]. destruct cb; [discriminate|].
      simpl in Hr. apply negb_true_iff in Hr.
      unfold while_body. rewrite Hr. unfold lands, on_request_error.
      rewrite after_failures_step.
      change (http_error_wait (after_failures (S k)))
        with (5 * 2 ^ Z.of_nat (S k)).
      rewrite Nat2Z.inj_succ, Z.pow_succ_r by lia.
      replace (5 * (2 * 2 ^ Z.of_nat k)) with (5 * 2 ^ Z.of_nat k * 2) by lia.
      rewrite (doubled_over_cap k Hk).
      destruct (Nat.eqb_spec k 6) as [H6|H6].
      * (* the seventh failure: the doubled delay passes the cap *)
        subst k. subst n.
        replace (Nat.min (Z.to_nat (max_retries self)) 7 - 6)%nat with 1%nat
          by lia.
        simpl List.length.
        replace (Nat.min (S (List.length fails)) 1) with 1%nat by lia.
        replace (S (List.length fails) <? 1)%nat with false
          by (symmetry; apply Nat.ltb_ge; lia).
        eexists. split; [reflexivity|]. split; reflexivity.
      * destruct (IH Hall (S k) ltac:(lia)) as [evs [Hw [Hs Hg]]].
        rewrite Hw. clear Hw.
        assert (Hn : n = S (Nat.min (List.length fails)
                       (Nat.min (Z.to_nat (max_retries self)) 7 - S k)))
          by (subst n; simpl List.length; lia).
        rewrite Hn.
        replace (k + S _)%nat
          with (S k + Nat.min (List.length fails)
                  (Nat.min (Z.to_nat (max_retries self)) 7 - S k))%nat by lia.
        replace (List.length (_ :: fails) <?
                 Nat.min (Z.to_nat (max_retries self)) 7 - k)%nat
          with (List.length fails <?
                Nat.min (Z.to_nat (max_retries self)) 7 - S k)%nat.
        2:{ simpl List.length.
            destruct (Nat.ltb_spec (List.length fails)
                        (Nat.min (Z.to_nat (max_retries self)) 7 - S k));
              symmetry; [apply Nat.ltb_lt | apply Nat.ltb_ge]; lia. }
        eexists. split; [reflexivity|]. split.
        -- rewrite sleeps_app, Hs. cbn [seq map].
           rewrite (backoff_formula_small k Hk). reflexivity.
        -- rewrite count_app, Hg. reflexivity.
    + subst n.
      replace (Nat.min (Z.to_nat (max_retries self)) 7 - k)%nat with 0%nat
        by lia.
      rewrite Nat.min_0_r, Nat.add_0_r. exists [].
      repeat split.
Qed.


(** C2 (as the code has it): for failed attempts in a row from the start of a
    call (non-success statuses), the delay after the [N]th failure is
    [min(5 * 2^(N-1), 320) = 5 * 2^(N-1)] for every [N] up to
    [min(max_retries, 7)]; the seventh failure sleeps exactly the cap, and
    then the loop is left even when the retry budget is not used up, because
    the doubled delay is over the cap. *)
Theorem backoff_doubles_then_stops self url return_json fails :
  _auth self = true ->
  forallb refusal fails = true ->
  let r := _connect self url return_json fails in
  let limit := Nat.min (Z.to_nat (max_retries self)) 7 in
  sleeps (trace r) =
    map (backoff_formula 5 320) (seq 1 (Nat.min (List.length fails) limit)) /\
  Forall (fun s => s <= http_error_wait_max) (sleeps (trace r)) /\
  ended r = (if (List.length fails <? limit)%nat then Blocks else Returns).
Proof.
  intros Hauth Hall r limit.
  destruct (refusals_loop (set_running true self) url return_json fails
              eq_refl Hall 0%nat ltac:(lia)) as [evs [Hw [Hs _]]].
  cbn zeta in Hw. rewrite Nat.sub_0_r in Hw, Hs.
  change (max_retries (set_running true self)) with (max_retries self)
    in Hw, Hs.
  assert (Hsl : sleeps (trace r) =
                map (backoff_formula 5 320)
                    (seq 1 (Nat.min (List.length fails) limit))).
  { subst r. unfold _connect. rewrite Hauth. cbn [negb].
    rewrite guarded_sleeps.
    change initial_locals with (after_failures 0). rewrite Hw. exact Hs. }
  split; [exact Hsl|]. split.
  - rewrite Hsl. apply Forall_forall. intros s Hin.
    apply in_map_iff in Hin. destruct Hin as [N [HN _]]. subst s.
    unfold backoff_formula, http_error_wait_max. lia.
  - subst r. unfold _connect. rewrite Hauth. cbn [negb].
    change initial_locals with (after_failures 0). rewrite Hw.
    fold limit. destruct (List.length fails <? limit)%nat; reflexivity.
Qed.

(** *** Exhaustion *)

Lemma while_body_gets self url return_json loc r :
  count is_get (snd (while_body self url return_json loc r)) = 1%nat.
Proof.
  destruct r as [e|status d cb lines fin]; [reflexivity|]. simpl.
  destruct (status =? 200).
  - pose proof (for_lines_events (lands d self) return_json lines) as Hev.
    apply callbacks_no_get in Hev.
    destruct (for_lines (lands d self) return_json lines)
      as [[[| |e] s] evs]; simpl in *;
      try (unfold count in *; simpl; rewrite Hev; reflexivity).
    destruct fin; unfold count in *; simpl; rewrite Hev; reflexivity.
  - destruct cb; reflexivity.
Qed.

(** Every connection opened is one response of the script. *)
Lemma while_loop_gets self url return_json loc script :
  (count is_get (snd (while_loop self url return_json loc script))
   <= List.length script)%nat.
Proof.
  revert self loc. induction script as [|r script IH]; intros self loc.
  - rewrite while_loop_nil.
    destruct (running self && (retries loc <? max_retries self));
      cbn; lia.
  - rewrite while_loop_cons.
    destruct (running self && (retries loc <? max_retries self));
      [|cbn; lia].
    pose proof (while_body_gets self url return_json loc r) as Hb.
    destruct (while_body self url return_json loc r)
      as [[[[| |e] s1] l1] evs1]; simpl in *; try lia.
    specialize (IH s1 l1).
    destruct (while_loop s1 url return_json l1 script)
      as [[[out s2] l2] evs2].
    simpl in *. rewrite count_app. lia.
Qed.

(** A loop that has ended does not look at the rest of the script. *)
Lemma while_loop_finished self url return_json loc script rest :
  fst (fst (fst (while_loop self url return_json loc script))) <> Blocks ->
  while_loop self url return_json loc (script ++ rest) =
  while_loop self url return_json loc script.
Proof.
  intros H. rewrite while_loop_app.
  destruct (while_loop self url return_json loc script)
    as [[[[|e|] s] l] evs]; try reflexivity.
  exfalso. apply H. reflexivity.
Qed.

Lemma guarded_gets (loop : outcome * StreamApi * locals * list event) :
  count is_get (trace (guarded Tweet loop)) = count is_get (snd loop).
Proof.
  destruct loop as [[[[|e|] s] l] evs]; simpl.
  - rewrite count_app. cbn. lia.
  - destruct (is_Exception e); simpl; rewrite count_app; cbn; lia.
  - reflexivity.
Qed.

(** Once the call has come back the session is closed and the flag is down. *)
Lemma guarded_cleanup (loop : outcome * StreamApi * locals * list event) :
  ended (guarded Tweet loop) <> Blocks ->
  session_closed (api (guarded Tweet loop)) = true /\
  running (api (guarded Tweet loop)) = false /\
  exists evs, trace (guarded Tweet loop) = evs ++ [EvClose].
Proof.
  destruct loop as [[[[|e|] s] l] evs]; simpl.
  - intros _. repeat split. exists evs. reflexivity.
  - destruct (is_Exception e); simpl; intros _; repeat split.
    + exists (evs ++ [EvLog e]). rewrite <- app_assoc. reflexivity.
    + exists evs. reflexivity.
  - intros H. exfalso. apply H. reflexivity.
Qed.

Lemma failed_attempts_split fails :
  forallb failed_attempt fails = true ->
  forallb refusal fails = true \/
  exists refused e tail,
    fails = refused ++ GetRaises e :: tail /\
    forallb refusal refused = true /\ is_Exception e = true.
Proof.
  induction fails as [|r fails IH]; intros Hall; [left; reflexivity|].
  simpl in Hall. apply andb_true_iff in Hall. destruct Hall as [Hr Hall].
  destruct r as [e|status d cb lines fin].
  - right. exists [], e, fails. repeat split. exact Hr.
  - destruct (IH Hall) as [Hrf|[refused [e [tail [Heq [Hrf He]]]]]].
    + left. simpl forallb. apply andb_true_iff. split; assumption.
    + right. exists (Response status d cb lines fin :: refused), e, tail.
      subst fails. repeat split; [|assumption].
      simpl forallb. apply andb_true_iff. split; assumption.
Qed.

(** [max_retries] failed attempts in a row end the loop without an exception
    leaving it uncaught. *)
Lemma failed_attempts_loop self url return_json fails :
  running self = true ->
  forallb failed_attempt fails = true ->
  Z.of_nat (List.length fails) = max_retries self ->
  exists s l evs,
    (while_loop self url return_json initial_locals fails = (Returns, s, l, evs)
     \/ exists e, is_Exception e = true /\
          while_loop self url return_json initial_locals fails =
          (Raises e, s, l, evs)).
Proof.
  intros Hrun Hall Hlen.
  destruct (failed_attempts_split fails Hall)
    as [Hrf|[refused [e [tail [Heq [Hrf He]]]]]].
  - destruct (refusals_loop self url return_json fails Hrun Hrf 0%nat
                ltac:(lia)) as [evs [Hw _]].
    cbn zeta in Hw.
    replace (List.length fails <? _)%nat with false in Hw
      by (symmetry; apply Nat.ltb_ge; lia).
    do 3 eexists. left. exact Hw.
  - destruct (refusals_loop self url return_json refused Hrun Hrf 0%nat
                ltac:(lia)) as [evs [Hw _]].
    cbn zeta in Hw. change (after_failures 0) with initial_locals in Hw.
    subst fails. rewrite while_loop_app, Hw.
    destruct (List.length refused <? _)%nat eqn:Hlt.
    + apply Nat.ltb_lt in Hlt. rewrite while_loop_cons, Hrun.
      cbn [andb after_failures retries].
      replace (Z.of_nat _ <? max_retries self) with true
        by (symmetry; apply Z.ltb_lt; lia).
      cbn. do 3 eexists. right. exists e. split; [exact He|reflexivity].
    + do 3 eexists. left. reflexivity.
Qed.

(** C3 (as the code has it): after [max_retries] failed connection attempts
    in a row (non-success statuses, or a transport fault) the controller
    ends without opening another transport connection, closes the session
    and returns normally: nothing tells the caller that the budget was used
    up. *)
Theorem exhaustion_returns_silently self url return_json fails rest :
  _auth self = true ->
  forallb failed_attempt fails = true ->
  Z.of_nat (List.length fails) = max_retries self ->
  let r := _connect self url return_json (fails ++ rest) in
  r = _connect self url return_json fails /\
  ended r = Returns /\
  (count is_get (trace r) <= List.length fails)%nat /\
  session_closed (api r) = true /\ running (api r) = false.
Proof.
  intros Hauth Hall Hlen r.
  destruct (failed_attempts_loop (set_running true self) url return_json
              fails eq_refl Hall Hlen) as [s [l [evs Hw]]].
  assert (Heq : r = _connect self url return_json fails).
  { subst r. unfold _connect. rewrite Hauth. cbn [negb].
    rewrite while_loop_finished; [reflexivity|].
    destruct Hw as [Hw|[e [_ Hw]]]; rewrite Hw; discriminate. }
  split; [exact Heq|]. rewrite Heq. unfold _connect. rewrite Hauth.
  cbn [negb]. rewrite guarded_gets.
  pose proof (while_loop_gets (set_running true self) url return_json
                initial_locals fails) as Hg.
  destruct Hw as [Hw|[e [He Hw]]]; rewrite Hw in *; simpl in *;
    [|rewrite He]; repeat split; assumption.
Qed.


(** *** Resuming a call that is still in its loop *)

Lemma connect_resume self url return_json pre rest :
  _auth self = true ->
  ended (_connect self url return_json pre) = Blocks ->
  let p := _connect self url return_json pre in
  running (api p) = true /\
  retries (vars p) < max_retries (api p) /\
  _connect self url return_json (pre ++ rest) =
  guarded Tweet
    (let '(out, s, l, evs) :=
       while_loop (api p) url return_json (vars p) rest in
     (out, s, l, trace p ++ evs)).
Proof.
  intros Hauth. unfold _connect. rewrite Hauth. cbn [negb].
  rewrite while_loop_app.
  destruct (while_loop (set_running true self) url return_json
              initial_locals pre) as [[[[|e|] s] l] evs] eqn:Hw;
    cbn [guarded ended]; try discriminate.
  - destruct (is_Exception e); discriminate.
  - intros _. cbn [api vars trace].
    destruct (while_loop_blocks _ _ _ _ _ _ _ _ Hw) as [Hrun Hlt].
    repeat split; assumption.
Qed.

(** *** Fatal payload lines *)

Lemma on_data_errors raw return_json behaviour fields message :
  json_loads raw = Some (JObject fields) ->
  lookup "errors" fields = Some message ->
  on_data raw return_json behaviour = (Some (PyTwitterError message), []).
Proof.
  intros Hload Hfield. unfold on_data, loads. rewrite Hload.
  cbn [bind py_in py_getitem]. rewrite Hfield. reflexivity.
Qed.

Lemma on_data_unparseable raw return_json behaviour :
  json_loads raw = None ->
  on_data raw return_json behaviour = (Some JSONDecodeError, []).
Proof.
  intros Hload. unfold on_data, loads. rewrite Hload. reflexivity.
Qed.

(** A line whose handling raises ends the pass through the loop body, and
    with it the loop; the locals are as they were before the connection. *)
Lemma raising_line_loop self url return_json loc d cb ls1 bad ls2 fin rest e evs0 :
  running self = true ->
  retries loc < max_retries self ->
  fst (fst (for_lines (lands d self) return_json ls1)) = ForEnd ->
  handle return_json bad = (Some e, evs0) ->
  exists s,
    while_loop self url return_json loc
      (Response 200 d cb (ls1 ++ bad :: ls2) fin :: rest) =
    (Raises e, s, loc,
     EvGet url :: EvHeaders ::
       snd (for_lines (lands d self) return_json ls1) ++ evs0).
Proof.
  intros Hrun Hlt Hls1 Hbad.
  rewrite while_loop_cons, Hrun.
  replace (retries loc <? max_retries self) with true
    by (symmetry; apply Z.ltb_lt; assumption).
  cbn [andb while_body Z.eqb Pos.eqb]. rewrite for_lines_app.
  destruct (for_lines (lands d self) return_json ls1) as [[how s1] evs1].
  simpl in Hls1. subst how. rewrite for_lines_cons, Hbad.
  exists s1. reflexivity.
Qed.

Lemma raising_line_run self url return_json pre d cb ls1 bad ls2 fin rest e evs0 :
  _auth self = true ->
  ended (_connect self url return_json pre) = Blocks ->
  let p := _connect self url return_json pre in
  fst (fst (for_lines (lands d (api p)) return_json ls1)) = ForEnd ->
  handle return_json bad = (Some e, evs0) ->
  exists s,
    _connect self url return_json
      (pre ++ Response 200 d cb (ls1 ++ bad :: ls2) fin :: rest) =
    guarded Tweet
      (Raises e, s, vars p,
       trace p ++ EvGet url :: EvHeaders ::
         snd (for_lines (lands d (api p)) return_json ls1) ++ evs0).
Proof.
  intros Hauth Hblocks p Hls1 Hbad.
  destruct (connect_resume self url return_json pre
              (Response 200 d cb (ls1 ++ bad :: ls2) fin :: rest)
              Hauth Hblocks) as [Hrun [Hlt Heq]].
  fold p in Hrun, Hlt, Heq.
  destruct (raising_line_loop (api p) url return_json (vars p) d cb ls1 bad
              ls2 fin rest e evs0 Hrun Hlt Hls1 Hbad) as [s Hw].
  exists s. rewrite Heq, Hw. reflexivity.
Qed.

(** C4 (as the code has it): a payload line that is not JSON, or whose JSON
    object has an [errors] field, ends the session without a retry: no
    further connection is opened, the session is closed and the flag is down.
    The error is logged at the loop boundary and the call returns normally:
    it is not raised to the caller. *)
Theorem protocol_error_logged_not_raised
        self url return_json pre d cb ls1 bad ls2 fin rest :
  _auth self = true ->
  ended (_connect self url return_json pre) = Blocks ->
  let p := _connect self url return_json pre in
  fst (fst (for_lines (lands d (api p)) return_json ls1)) = ForEnd ->
  nonempty (ln_raw bad) = true ->
  (json_loads (ln_raw bad) = None \/
   exists fields message,
     json_loads (ln_raw bad) = Some (JObject fields) /\
     lookup "errors" fields = Some message) ->
  let r := _connect self url return_json
             (pre ++ Response 200 d cb (ls1 ++ bad :: ls2) fin :: rest) in
  ended r = Returns /\
  (exists e,
      (e = JSONDecodeError \/ exists message, e = PyTwitterError message) /\
      trace r =
      trace p ++ EvGet url :: EvHeaders ::
        snd (for_lines (lands d (api p)) return_json ls1) ++
        [EvLog e; EvClose]) /\
  count is_get (trace r) = S (count is_get (trace p)) /\
  session_closed (api r) = true /\ running (api r) = false.
Proof.
  intros Hauth Hblocks p Hls1 Hne Hbad r.
  assert (Hh : exists e,
             (e = JSONDecodeError \/ exists message, e = PyTwitterError message)
             /\ handle return_json bad = (Some e, [])).
  { unfold handle. rewrite Hne.
    destruct Hbad as [Hnone|[fields [message [Hload Hfield]]]].
    - exists JSONDecodeError. split; [left; reflexivity|].
      apply on_data_unparseable; assumption.
    - exists (PyTwitterError message).
      split; [right; exists message; reflexivity|].
      eapply on_data_errors; eassumption. }
  destruct Hh as [e [He Hh]].
  destruct (raising_line_run self url return_json pre d cb ls1 bad ls2 fin
              rest e [] Hauth Hblocks Hls1 Hh) as [s Hr].
  fold p in Hr. fold r in Hr.
  assert (Hexc : is_Exception e = true)
    by (destruct He as [->|[message ->]]; reflexivity).
  rewrite app_nil_r in Hr. cbn [guarded] in Hr. rewrite Hexc in Hr.
  rewrite Hr. cbn [ended trace api].
  split; [reflexivity|]. split.
  - exists e. split; [exact He|].
    rewrite <- app_assoc. reflexivity.
  - split; [|split; reflexivity].
    rewrite <- app_assoc, count_app. cbn [app].
    pose proof (for_lines_events (lands d (api p)) return_json ls1) as Hev.
    apply callbacks_no_get in Hev.
    change (EvGet url :: EvHeaders ::
              snd (for_lines (lands d (api p)) return_json ls1) ++
              [EvLog e; EvClose])
      with ([EvGet url; EvHeaders] ++
              snd (for_lines (lands d (api p)) return_json ls1) ++
              [EvLog e; EvClose]).
    rewrite !count_app, Hev. cbn. lia.
Qed.

(** C5: a payload line whose JSON object has an [errors] field never reaches
    [on_tweet]: [on_data] raises before the callback, the session ends
    (closed, flag down, call over) and neither [retries] nor the sequence of
    backoff sleeps changes. *)
Theorem errors_field_never_dispatched
        self url return_json pre d cb ls1 bad ls2 fin rest fields message :
  _auth self = true ->
  ended (_connect self url return_json pre) = Blocks ->
  let p := _connect self url return_json pre in
  fst (fst (for_lines (lands d (api p)) return_json ls1)) = ForEnd ->
  nonempty (ln_raw bad) = true ->
  json_loads (ln_raw bad) = Some (JObject fields) ->
  lookup "errors" fields = Some message ->
  let r := _connect self url return_json
             (pre ++ Response 200 d cb (ls1 ++ bad :: ls2) fin :: rest) in
  handle return_json bad = (Some (PyTwitterError message), []) /\
  count is_tweet (trace r) =
    (count is_tweet (trace p) +
     count is_tweet (snd (for_lines (lands d (api p)) return_json ls1)))%nat /\
  ended r = Returns /\
  session_closed (api r) = true /\ running (api r) = false /\
  vars r = vars p /\
  sleeps (trace r) = sleeps (trace p).
Proof.
  intros Hauth Hblocks p Hls1 Hne Hload Hfield r.
  assert (Hh : handle return_json bad = (Some (PyTwitterError message), [])).
  { unfold handle. rewrite Hne. eapply on_data_errors; eassumption. }
  destruct (raising_line_run self url return_json pre d cb ls1 bad ls2 fin
              rest _ [] Hauth Hblocks Hls1 Hh) as [s Hr].
  fold p in Hr. fold r in Hr.
  rewrite app_nil_r in Hr. cbn [guarded is_Exception] in Hr.
  rewrite Hr. cbn [ended trace api vars].
  pose proof (for_lines_events (lands d (api p)) return_json ls1) as Hev.
  apply callbacks_no_sleep in Hev.
  split; [exact Hh|].
  change (EvGet url :: EvHeaders ::
            snd (for_lines (lands d (api p)) return_json ls1))
    with ([EvGet url; EvHeaders] ++
            snd (for_lines (lands d (api p)) return_json ls1)).
  repeat split.
  - rewrite !count_app. cbn. lia.
  - rewrite !sleeps_app, Hev. cbn. rewrite !app_nil_r. reflexivity.
Qed.


(** *** Dispatch order *)

(** A line that is handled without an exception gives its own message to
    [on_tweet]. *)
Lemma handle_payload return_json ln :
  nonempty (ln_raw ln) = true ->
  fst (handle return_json ln) = None ->
  exists tweet,
    message_of return_json (ln_raw ln) = Some tweet /\
    handle return_json ln = (None, [EvTweet tweet]).
Proof.
  intros Hne. unfold handle. rewrite Hne.
  unfold on_data, loads, on_tweet, message_of.
  destruct (json_loads (ln_raw ln)) as [data|]; cbn [bind];
    [|discriminate].
  destruct (py_in "errors" data) as [e|[|]]; cbn [bind]; [discriminate | |].
  - destruct (py_getitem data "errors"); discriminate.
  - destruct return_json.
    + destruct (py_getitem data "data") as [e|inner]; cbn [bind];
        [discriminate|].
      destruct (new_from_json_dict inner) as [e|tweet]; cbn [bind];
        [discriminate|].
      cbn [fst]. intros ->. exists (Typed tweet). split; reflexivity.
    + cbn [fst]. intros ->. exists (Raw data). split; reflexivity.
Qed.


(** *** Cancellation *)

Lemma for_lines_break self return_json lines :
  fst (fst (for_lines self return_json lines)) = ForBreak ->
  running (snd (fst (for_lines self return_json lines))) = false.
Proof.
  revert self. induction lines as [|ln lines IH]; intros self;
    [discriminate|].
  rewrite for_lines_cons.
  destruct (handle return_json ln) as [[e|] evs]; [discriminate|].
  destruct (negb (running (lands (ln_disconnect ln) self))) eqn:Hneg.
  - intros _. apply negb_true_iff in Hneg. exact Hneg.
  - specialize (IH (lands (ln_disconnect ln) self)).
    destruct (for_lines (lands (ln_disconnect ln) self) return_json lines)
      as [[how s] evs']. exact IH.
Qed.

Lemma for_lines_callbacks self return_json lines :
  (count is_callback (snd (for_lines self return_json lines))
   <= List.length lines)%nat.
Proof.
  revert self. induction lines as [|ln lines IH]; intros self; [cbn; lia|].
  rewrite for_lines_cons.
  assert (Hone : (count is_callback (snd (handle return_json ln)) <= 1)%nat).
  { destruct (handle_cases return_json ln)
      as [[_ H]|[_ [[e H]|[tweet H]]]]; rewrite H; cbn; lia. }
  destruct (handle return_json ln) as [[e|] evs]; cbn [snd] in *.
  - cbn [List.length]. lia.
  - destruct (negb (running (lands (ln_disconnect ln) self)));
      cbn [snd List.length]; [lia|].
    specialize (IH (lands (ln_disconnect ln) self)).
    destruct (for_lines (lands (ln_disconnect ln) self) return_json lines)
      as [[how s] evs'].
    cbn [snd] in *. rewrite count_app. lia.
Qed.

(** The line during which [disconnect()] lands is the last one handled. *)
Lemma for_lines_disconnect self return_json ls1 ln ls2 :
  ln_disconnect ln = true ->
  for_lines self return_json (ls1 ++ ln :: ls2) =
  for_lines self return_json (ls1 ++ [ln]) /\
  fst (fst (for_lines self return_json (ls1 ++ [ln]))) <> ForEnd.
Proof.
  intros Hd. rewrite !for_lines_app.
  destruct (for_lines self return_json ls1) as [[[| |e] s1] evs1];
    [|split; [reflexivity|discriminate]..].
  rewrite !for_lines_cons, Hd.
  destruct (handle return_json ln) as [[e|] evs];
    [split; [reflexivity|discriminate]|].
  cbn [lands disconnect set_running running negb].
  split; [reflexivity|discriminate].
Qed.

(** C7: if [disconnect()] lands while the loop is reading or handling a line
    of an open stream, that line is the last one handled: the lines after it
    give no event at all, no further connection is opened, and the call ends
    with the flag down. *)
Theorem disconnect_stops_after_current_line
        self url return_json pre d cb ls1 ln ls2 fin rest :
  _auth self = true ->
  ended (_connect self url return_json pre) = Blocks ->
  ln_disconnect ln = true ->
  let p := _connect self url return_json pre in
  let r := _connect self url return_json
             (pre ++ Response 200 d cb (ls1 ++ ln :: ls2) fin :: rest) in
  let handled := snd (for_lines (lands d (api p)) return_json (ls1 ++ [ln])) in
  ended r <> Blocks /\
  running (api r) = false /\
  (exists tail,
      trace r = trace p ++ EvGet url :: EvHeaders :: handled ++ tail /\
      count is_callback tail = 0%nat /\ count is_get tail = 0%nat) /\
  (count is_callback handled <= List.length ls1 + 1)%nat.
Proof.
  intros Hauth Hblocks Hd p r handled.
  destruct (connect_resume self url return_json pre
              (Response 200 d cb (ls1 ++ ln :: ls2) fin :: rest)
              Hauth Hblocks) as [Hrun [Hlt Heq]].
  fold p in Hrun, Hlt, Heq. fold r in Heq.
  destruct (for_lines_disconnect (lands d (api p)) return_json ls1 ln ls2 Hd)
    as [Hsame Hstop].
  pose proof (for_lines_break (lands d (api p)) return_json (ls1 ++ [ln]))
    as Hbrk.
  pose proof (for_lines_callbacks (lands d (api p)) return_json (ls1 ++ [ln]))
    as Hcnt.
  rewrite length_app in Hcnt. cbn [List.length] in Hcnt.
  rewrite while_loop_cons, Hrun in Heq.
  replace (retries (vars p) <? max_retries (api p)) with true in Heq
    by (symmetry; apply Z.ltb_lt; assumption).
  cbn [andb while_body Z.eqb Pos.eqb] in Heq. rewrite Hsame in Heq.
  subst handled.
  destruct (for_lines (lands d (api p)) return_json (ls1 ++ [ln]))
    as [[[| |e] s] evs]; cbn [fst snd] in *.
  - exfalso. apply Hstop. reflexivity.
  - specialize (Hbrk eq_refl).
    assert (Hw : while_loop s url return_json (vars p) rest =
                 (Returns, s, vars p, [])).
    { destruct rest; [rewrite while_loop_nil | rewrite while_loop_cons];
        rewrite Hbrk; reflexivity. }
    rewrite Hw in Heq. cbn [guarded] in Heq. rewrite Heq.
    cbn [ended api trace]. repeat split; try discriminate; try assumption.
    exists [EvClose]. rewrite app_nil_r, <- app_assoc. repeat split.
  - cbn [guarded] in Heq. rewrite Heq.
    destruct (is_Exception e); cbn [ended api trace];
      (repeat split; try discriminate; try assumption).
    + exists [EvLog e; EvClose]. rewrite <- app_assoc. repeat split.
    + exists [EvClose]. rewrite <- app_assoc. repeat split.
Qed.


(** *** Cleanup, single session, exceptions *)

(** C8: whenever the loop of [_connect] is left - the budget used up, the
    doubled delay over the cap, a fatal payload, [disconnect()], or any
    exception, caught or not - the session has been closed and the flag is
    down when the call comes back; [session.close()] is the last thing
    done. *)
Theorem session_closed_on_every_exit self url return_json script :
  _auth self = true ->
  let r := _connect self url return_json script in
  ended r <> Blocks ->
  session_closed (api r) = true /\
  running (api r) = false /\
  exists evs, trace r = evs ++ [EvClose].
Proof.
  intros Hauth r. subst r. unfold _connect. rewrite Hauth. cbn [negb].
  apply guarded_cleanup.
Qed.

(** A call cannot stay in its loop once the transport raises. *)
Lemma connect_ends_on_fault self url return_json script e :
  ended (_connect self url return_json (script ++ [GetRaises e])) <> Blocks.
Proof.
  unfold _connect. destruct (negb (_auth self)); [discriminate|].
  rewrite while_loop_app.
  destruct (while_loop (set_running true self) url return_json
              initial_locals script) as [[[[|e'|] s] l] evs] eqn:Hw;
    cbn [guarded ended]; try discriminate.
  - destruct (is_Exception e'); discriminate.
  - destruct (while_loop_blocks _ _ _ _ _ _ _ _ Hw) as [Hrun Hlt].
    rewrite while_loop_cons, Hrun.
    replace (retries l <? max_retries s) with true
      by (symmetry; apply Z.ltb_lt; assumption).
    cbn. destruct (is_Exception e); discriminate.
Qed.

(** While a call is in its loop the flag is up. *)
Lemma session_keeps_flag_up self url return_json pre :
  _auth self = true ->
  ended (_connect self url return_json pre) = Blocks ->
  running (api (_connect self url return_json pre)) = true.
Proof.
  intros Hauth Hblocks.
  destruct (connect_resume self url return_json pre [] Hauth Hblocks)
    as [Hrun _].
  exact Hrun.
Qed.

(** With the flag up, [sample] raises [PyTwitterError("Stream is running")]
    at once: it opens no connection, leaves no event and does not touch the
    controller. *)
Theorem sample_fails_fast_when_running self invalid_fields return_json script :
  running self = true ->
  let r := sample self invalid_fields return_json script in
  ended r = Raises (PyTwitterError (JString "Stream is running")) /\
  trace r = [] /\
  count is_get (trace r) = 0%nat /\
  api r = self.
Proof.
  intros Hrun r. subst r. unfold sample. rewrite Hrun. repeat split.
Qed.

Lemma guarded_raises (loop : outcome * StreamApi * locals * list event) e :
  ended (guarded Tweet loop) = Raises e ->
  is_Exception e = false /\ fst (fst (fst loop)) = Raises e.
Proof.
  destruct loop as [[[[|e'|] s] l] evs]; cbn [guarded ended];
    try discriminate.
  destruct (is_Exception e') eqn:He; cbn [ended]; [discriminate|].
  intros H. inversion H; subst. split; [exact He|reflexivity].
Qed.

(** C10 (as the code has it): with a credential set, no exception that is an
    [Exception] leaves [_connect].  Whenever a pass through the loop body
    raises [e] - from [session.get], from [iter_lines], from [json.loads] or
    the [errors] check in [on_data], or from a user callback - the session
    is closed and the flag is down; if [e] is an [Exception] it is logged and
    the call returns normally, otherwise ([KeyboardInterrupt], [SystemExit])
    it is not caught and leaves [_connect]. *)
Theorem only_Exception_is_swallowed self url return_json pre resp rest e :
  _auth self = true ->
  ended (_connect self url return_json pre) = Blocks ->
  let p := _connect self url return_json pre in
  let body := while_body (api p) url return_json (vars p) resp in
  fst (fst (fst body)) = Raise e ->
  let r := _connect self url return_json (pre ++ resp :: rest) in
  (forall e', ended r = Raises e' -> is_Exception e' = false) /\
  session_closed (api r) = true /\ running (api r) = false /\
  if is_Exception e
  then ended r = Returns /\ trace r = trace p ++ snd body ++ [EvLog e; EvClose]
  else ended r = Raises e /\ trace r = trace p ++ snd body ++ [EvClose].
Proof.
  intros Hauth Hblocks p body Hraise r.
  destruct (connect_resume self url return_json pre (resp :: rest)
              Hauth Hblocks) as [Hrun [Hlt Heq]].
  fold p in Hrun, Hlt, Heq. fold r in Heq.
  rewrite while_loop_cons, Hrun in Heq.
  replace (retries (vars p) <? max_retries (api p)) with true in Heq
    by (symmetry; apply Z.ltb_lt; assumption).
  cbn [andb] in Heq. fold body in Heq.
  destruct body as [[[sg s] l] evs]. cbn [fst snd] in *. subst sg.
  cbn [guarded] in Heq. rewrite Heq.
  destruct (is_Exception e) eqn:He; cbn [ended api trace];
    rewrite <- app_assoc; repeat split; try discriminate.
  intros e' H. inversion H; subst. exact He.
Qed.

(** No [Exception] leaves [_connect] on any script; what does leave it was
    raised in the loop. *)
Lemma connect_raises_only_BaseException self url return_json script e :
  _auth self = true ->
  ended (_connect self url return_json script) = Raises e ->
  is_Exception e = false.
Proof.
  intros Hauth. unfold _connect. rewrite Hauth. cbn [negb].
  intros H. apply guarded_raises in H. apply H.
Qed.


(** ** Further properties of the controller *)

(** *** What a call leaves unchanged *)

Lemma same_settings_refl self : same_settings self self.
Proof. repeat split. Qed.

Lemma same_settings_trans s1 s2 s3 :
  same_settings s1 s2 -> same_settings s2 s3 -> same_settings s1 s3.
Proof.
  unfold same_settings. intros [H1 [H2 H3]] [H4 [H5 H6]].
  repeat split; congruence.
Qed.

Lemma lands_settings d self : same_settings self (lands d self).
Proof. destruct d; repeat split. Qed.

Lemma for_lines_settings self return_json lines :
  same_settings self (snd (fst (for_lines self return_json lines))).
Proof.
  revert self. induction lines as [|ln lines IH]; intros self.
  - apply same_settings_refl.
  - rewrite for_lines_cons.
    destruct (handle return_json ln) as [[e|] evs];
      [apply same_settings_refl|].
    destruct (negb (running (lands (ln_disconnect ln) self)));
      [apply lands_settings|].
    specialize (IH (lands (ln_disconnect ln) self)).
    destruct (for_lines (lands (ln_disconnect ln) self) return_json lines)
      as [[how s] evs'].
    eapply same_settings_trans; [apply lands_settings | exact IH].
Qed.

Lemma while_body_settings self url return_json loc r :
  same_settings self (snd (fst (fst (while_body self url return_json loc r)))).
Proof.
  destruct r as [e|status d cb lines fin]; [apply same_settings_refl|].
  simpl. destruct (status =? 200).
  - pose proof (for_lines_settings (lands d self) return_json lines) as Hf.
    destruct (for_lines (lands d self) return_json lines)
      as [[[| |e] s] evs]; cbn [fst snd] in *.
    + destruct fin as [late|e]; cbn [fst snd].
      * eapply same_settings_trans; [apply lands_settings|].
        eapply same_settings_trans; [exact Hf | apply lands_settings].
      * eapply same_settings_trans; [apply lands_settings | exact Hf].
    + eapply same_settings_trans; [apply lands_settings | exact Hf].
    + eapply same_settings_trans; [apply lands_settings | exact Hf].
  - destruct cb; apply lands_settings.
Qed.

Lemma while_loop_settings self url return_json loc script :
  same_settings self
    (snd (fst (fst (while_loop self url return_json loc script)))).
Proof.
  revert self loc. induction script as [|r script IH]; intros self loc.
  - rewrite while_loop_nil.
    destruct (running self && (retries loc <? max_retries self));
      apply same_settings_refl.
  - rewrite while_loop_cons.
    destruct (running self && (retries loc <? max_retries self));
      [|apply same_settings_refl].
    pose proof (while_body_settings self url return_json loc r) as Hb.
    destruct (while_body self url return_json loc r)
      as [[[[| |e] s1] l1] evs1]; cbn [fst snd] in *; try exact Hb.
    specialize (IH s1 l1).
    destruct (while_loop s1 url return_json l1 script)
      as [[[out s2] l2] evs2].
    cbn [fst snd] in *. eapply same_settings_trans; eassumption.
Qed.

(** X1: a call changes nothing of the controller but the [running] flag and
    the session: the credential and [max_retries] are as before, however
    the call ends. *)
Theorem call_keeps_credential_and_budget self url return_json script :
  _auth (api (_connect self url return_json script)) = _auth self /\
  max_retries (api (_connect self url return_json script)) = max_retries self.
Proof.
  unfold _connect. destruct (negb (_auth self)); [split; reflexivity|].
  pose proof (while_loop_settings (set_running true self) url return_json
                initial_locals script) as [Ha [Hm _]].
  destruct (while_loop (set_running true self) url return_json
              initial_locals script) as [[[[|e|] s] l] evs];
    cbn [fst snd guarded] in *; try (split; assumption).
  destruct (is_Exception e); split; assumption.
Qed.

(** *** The backoff schedule on any script *)

Lemma while_body_schedule self url return_json k r :
  (k <= 6)%nat ->
  let '(sg, _, l, evs) := while_body self url return_json (after_failures k) r in
  (l = after_failures k /\ sleeps evs = []) \/
  (l = after_failures (S k) /\ sleeps evs = [5 * 2 ^ Z.of_nat k] /\
   sg = if (k =? 6)%nat then Break else Continue).
Proof.
  intros Hk. destruct r as [e|status d cb lines fin];
    [left; split; reflexivity|].
  unfold while_body. destruct (status =? 200).
  - pose proof (for_lines_events (lands d self) return_json lines) as Hev.
    apply callbacks_no_sleep in Hev.
    destruct (for_lines (lands d self) return_json lines)
      as [[[| |e] s] evs]; cbn [snd] in Hev;
      try (left; split; [reflexivity | exact Hev]).
    destruct fin; left; (split; [reflexivity | exact Hev]).
  - destruct cb as [e|]; cbn [on_request_error];
      [left; split; reflexivity|].
    right. rewrite after_failures_step.
    change (http_error_wait (after_failures (S k)))
      with (5 * 2 ^ Z.of_nat (S k)).
    rewrite Nat2Z.inj_succ, Z.pow_succ_r by lia.
    replace (5 * (2 * 2 ^ Z.of_nat k)) with (5 * 2 ^ Z.of_nat k * 2) by lia.
    rewrite (doubled_over_cap k Hk).
    split; [reflexivity|]. split; [|reflexivity].
    change (EvGet url :: [EvRequestError status] ++
              [EvSleep (http_error_wait (after_failures k))])
      with ([EvGet url; EvRequestError status] ++
              [@EvSleep Tweet (5 * 2 ^ Z.of_nat k)]).
    rewrite sleeps_app. reflexivity.
Qed.

Lemma while_loop_schedule url return_json script :
  forall self k, (k <= 6)%nat ->
  let '(_, _, l, evs) :=
    while_loop self url return_json (after_failures k) script in
  exists n,
    l = after_failures (k + n) /\
    sleeps evs = map (fun i => 5 * 2 ^ Z.of_nat i) (seq k n) /\
    (k + n <= 7)%nat /\
    (n = 0%nat \/ Z.of_nat (k + n) <= max_retries self).
Proof.
  induction script as [|r script IH]; intros self k Hk.
  - rewrite while_loop_nil.
    destruct (running self && _); exists 0%nat; rewrite Nat.add_0_r;
      (repeat split; [lia | left; reflexivity]).
  - rewrite while_loop_cons.
    destruct (running self && (retries (after_failures k) <? max_retries self))
      eqn:Hc.
    2:{ exists 0%nat. rewrite Nat.add_0_r.
        repeat split; [lia | left; reflexivity]. }
    apply andb_true_iff in Hc. destruct Hc as [_ Hlt].
    apply Z.ltb_lt in Hlt. cbn [after_failures retries] in Hlt.
    pose proof (while_body_schedule self url return_json k r Hk) as Hb.
    pose proof (while_body_settings self url return_json (after_failures k) r)
      as [_ [Hm _]].
    destruct (while_body self url return_json (after_failures k) r)
      as [[[sg s1] l1] evs1]. cbn [fst snd] in Hm.
    destruct Hb as [[Hl Hs]|[Hl [Hs Hsg]]]; subst l1.
    + destruct sg as [| |e];
        try (exists 0%nat; rewrite Nat.add_0_r;
             repeat split; [exact Hs | lia | left; reflexivity]).
      specialize (IH s1 k Hk).
      destruct (while_loop s1 url return_json (after_failures k) script)
        as [[[out s2] l2] evs2].
      destruct IH as [n [Hl2 [Hs2 [Hn Hb]]]]. exists n.
      rewrite sleeps_app, Hs, Hs2, <- Hm. repeat split; assumption.
    + destruct (Nat.eqb_spec k 6) as [H6|H6]; subst sg.
      * exists 1%nat. replace (k + 1)%nat with (S k) by lia.
        repeat split; [exact Hs | lia | right; lia].
      * specialize (IH s1 (S k) ltac:(lia)).
        destruct (while_loop s1 url return_json (after_failures (S k)) script)
          as [[[out s2] l2] evs2].
        destruct IH as [n [Hl2 [Hs2 [Hn Hb]]]]. exists (S n).
        replace (k + S n)%nat with (S k + n)%nat by lia.
        rewrite sleeps_app, Hs, Hs2. cbn [seq map app].
        repeat split; [assumption | lia | right; rewrite <- Hm; lia].
Qed.

Lemma schedule_prefix (n : nat) :
  (n <= 7)%nat ->
  map (fun i => 5 * 2 ^ Z.of_nat i) (seq 0 n) = firstn n schedule.
Proof.
  intros H.
  assert (Hn : n = 0%nat \/ n = 1%nat \/ n = 2%nat \/ n = 3%nat \/
               n = 4%nat \/ n = 5%nat \/ n = 6%nat \/ n = 7%nat) by lia.
  destruct Hn as [?|[?|[?|[?|[?|[?|[?|?]]]]]]]; subst n; reflexivity.
Qed.

Lemma connect_schedule self url return_json script :
  exists n,
    vars (_connect self url return_json script) = after_failures n /\
    sleeps (trace (_connect self url return_json script)) = firstn n schedule /\
    (n <= 7)%nat /\
    (n = 0%nat \/ Z.of_nat n <= max_retries self).
Proof.
  unfold _connect. destruct (negb (_auth self)).
  - exists 0%nat. repeat split; [lia | left; reflexivity].
  - rewrite guarded_sleeps, guarded_vars.
    pose proof (while_loop_schedule url return_json script
                  (set_running true self) 0%nat ltac:(lia)) as H.
    change (after_failures 0) with initial_locals in H.
    destruct (while_loop (set_running true self) url return_json
                initial_locals script) as [[[out s] l] evs].
    destruct H as [n [Hl [Hs [Hn Hb]]]]. cbn [fst snd] in *.
    exists n. rewrite Hs, schedule_prefix by lia.
    repeat split; assumption.
Qed.

(** X2: on every script the delays a call sleeps are the first [n] of 5, 10,
    20, 40, 80, 160, 320, for some [n <= 7]: each delay is twice the one
    before, whatever happens between two failures, none is above 320, and a
    call never sleeps more than 635 in all. *)
Theorem sleeps_are_a_prefix_of_the_schedule self url return_json script :
  let slept := sleeps (trace (_connect self url return_json script)) in
  (exists n, (n <= 7)%nat /\ slept = firstn n schedule) /\
  Forall (fun s => 5 <= s <= http_error_wait_max) slept /\
  fold_right Z.add 0 slept <= 635.
Proof.
  intros slept.
  destruct (connect_schedule self url return_json script)
    as [n [_ [Hs [Hn _]]]].
  fold slept in Hs. rewrite Hs.
  assert (Hc : n = 0%nat \/ n = 1%nat \/ n = 2%nat \/ n = 3%nat \/
               n = 4%nat \/ n = 5%nat \/ n = 6%nat \/ n = 7%nat) by lia.
  split; [exists n; split; [exact Hn | reflexivity]|].
  unfold http_error_wait_max.
  destruct Hc as [?|[?|[?|[?|[?|[?|[?|?]]]]]]]; subst n; cbn;
    (split; [repeat constructor; lia | lia]).
Qed.

(** X3: the retry counter stays within the budget: on every script it is the
    number of sleeps made, it is between 0 and 7, and it is never above
    [max_retries] (when that is not negative). *)
Theorem retries_stay_within_budget self url return_json script :
  let r := _connect self url return_json script in
  retries (vars r) = Z.of_nat (List.length (sleeps (trace r))) /\
  0 <= retries (vars r) <= 7 /\
  retries (vars r) <= Z.max 0 (max_retries self).
Proof.
  intros r.
  destruct (connect_schedule self url return_json script)
    as [n [Hv [Hs [Hn Hb]]]].
  fold r in Hv, Hs. rewrite Hv, Hs. cbn [after_failures retries].
  rewrite length_firstn. cbn [schedule List.length].
  repeat split; lia.
Qed.


(** *** Edge cases of a call *)

Lemma while_loop_stopped self url return_json loc script :
  running self = false ->
  while_loop self url return_json loc script = (Returns, self, loc, []).
Proof.
  intros H. destruct script; [rewrite while_loop_nil | rewrite while_loop_cons];
    rewrite H; reflexivity.
Qed.

(** X4: with [max_retries <= 0] a call opens no connection at all, whatever
    the transport would answer: it only closes the session and returns. *)
Theorem no_budget_no_connection self url return_json script :
  _auth self = true ->
  max_retries self <= 0 ->
  let r := _connect self url return_json script in
  ended r = Returns /\
  trace r = [EvClose] /\
  session_closed (api r) = true /\ running (api r) = false.
Proof.
  intros Hauth Hmr r. subst r. unfold _connect. rewrite Hauth. cbn [negb].
  assert (Hw : while_loop (set_running true self) url return_json
                 initial_locals script =
               (Returns, set_running true self, initial_locals, [])).
  { destruct script; [rewrite while_loop_nil | rewrite while_loop_cons];
      cbn [set_running running max_retries initial_locals retries andb];
      replace (0 <? max_retries self) with false
        by (symmetry; apply Z.ltb_ge; assumption);
      reflexivity. }
  rewrite Hw. repeat split.
Qed.

(** X5: a [disconnect()] made before the call is lost: [_connect] raises the
    flag again when it starts, so the call runs as if nobody had
    disconnected. *)
Theorem disconnect_before_connect_is_lost self url return_json script :
  _auth self = true ->
  _connect (disconnect self) url return_json script =
  _connect self url return_json script.
Proof.
  intros Hauth. unfold _connect, disconnect.
  cbn [set_running _auth]. rewrite Hauth. reflexivity.
Qed.

(** X6: a [disconnect()] that lands during a refused attempt does not cut the
    backoff short: [on_request_error] is called, the call sleeps the whole
    current delay, and only then ends, without another connection. *)
Theorem disconnect_waits_out_the_sleep
        self url return_json pre status cb_lines fin rest :
  _auth self = true ->
  ended (_connect self url return_json pre) = Blocks ->
  status <> 200 ->
  let p := _connect self url return_json pre in
  let r := _connect self url return_json
             (pre ++ Response status true None cb_lines fin :: rest) in
  ended r = Returns /\
  trace r = trace p ++ [EvGet url; EvRequestError status;
                        EvSleep (http_error_wait (vars p)); EvClose] /\
  retries (vars r) = retries (vars p) + 1.
Proof.
  intros Hauth Hblocks Hst p r.
  destruct (connect_resume self url return_json pre
              (Response status true None cb_lines fin :: rest)
              Hauth Hblocks) as [Hrun [Hlt Heq]].
  fold p in Hrun, Hlt, Heq. fold r in Heq.
  rewrite while_loop_cons, Hrun in Heq.
  replace (retries (vars p) <? max_retries (api p)) with true in Heq
    by (symmetry; apply Z.ltb_lt; assumption).
  cbn [andb while_body] in Heq.
  replace (status =? 200) with false in Heq
    by (symmetry; apply Z.eqb_neq; assumption).
  cbn [on_request_error lands] in Heq.
  destruct (_ >? http_error_wait_max) in Heq.
  - cbn [guarded] in Heq. rewrite Heq. cbn [ended trace vars retries].
    rewrite <- app_assoc. repeat split.
  - rewrite while_loop_stopped in Heq by reflexivity.
    cbn [guarded] in Heq. rewrite Heq. cbn [ended trace vars retries].
    rewrite app_nil_r, <- app_assoc. repeat split.
Qed.

(** *** Streams that the server closes *)

Lemma for_lines_delivered self return_json lines :
  running self = true ->
  forallb (delivered return_json) lines = true ->
  fst (for_lines self return_json lines) = (ForEnd, self).
Proof.
  intros Hrun. induction lines as [|ln lines IH]; intros Hall;
    [reflexivity|].
  simpl in Hall. apply andb_true_iff in Hall. destruct Hall as [Hln Hall].
  unfold delivered in Hln. apply andb_true_iff in Hln.
  destruct Hln as [Hd Hret]. apply negb_true_iff in Hd.
  rewrite for_lines_cons, Hd.
  destruct (handle return_json ln) as [[e|] evs]; [discriminate|].
  cbn [lands]. rewrite Hrun. cbn [negb].
  specialize (IH Hall).
  destruct (for_lines self return_json lines) as [[how s] evs'].
  cbn [fst] in *. exact IH.
Qed.

Lemma closed_streams_loop self url return_json loc streams :
  running self = true ->
  retries loc < max_retries self ->
  forallb (closed_stream return_json) streams = true ->
  exists evs,
    while_loop self url return_json loc streams = (Blocks, self, loc, evs) /\
    sleeps evs = [] /\
    count is_get evs = List.length streams.
Proof.
  intros Hrun Hlt. induction streams as [|r streams IH]; intros Hall.
  - rewrite while_loop_nil, Hrun.
    replace (retries loc <? max_retries self) with true
      by (symmetry; apply Z.ltb_lt; assumption).
    exists []. repeat split.
  - simpl in Hall. apply andb_true_iff in Hall. destruct Hall as [Hr Hall].
    destruct (IH Hall) as [evs [Hw [Hs Hg]]].
    destruct r as [e|status d cb lines [late|e]]; try discriminate.
    cbn [closed_stream] in Hr.
    apply andb_true_iff in Hr. destruct Hr as [Hr Hlines].
    apply andb_true_iff in Hr. destruct Hr as [Hr Hlate].
    apply andb_true_iff in Hr. destruct Hr as [Hst Hd].
    apply negb_true_iff in Hlate, Hd. subst d late.
    rewrite while_loop_cons, Hrun.
    replace (retries loc <? max_retries self) with true
      by (symmetry; apply Z.ltb_lt; assumption).
    cbn [andb while_body lands]. rewrite Hst.
    pose proof (for_lines_delivered self return_json lines Hrun Hlines) as Hf.
    pose proof (for_lines_events self return_json lines) as Hev.
    destruct (for_lines self return_json lines) as [[how s] evs1].
    cbn [fst snd] in *. inversion Hf; subst how s.
    rewrite Hw. eexists. split; [reflexivity|].
    change (EvGet url :: EvHeaders :: evs1)
      with ([@EvGet Tweet url; EvHeaders] ++ evs1).
    rewrite !sleeps_app, !count_app, Hs, Hg.
    rewrite (callbacks_no_sleep _ Hev), (callbacks_no_get _ Hev).
    split; reflexivity.
Qed.

(** X7: a stream with a success status that the server closes is reopened at
    once: no [on_request_error], no sleep, no use of the retry budget.  As
    long as the transport keeps answering this way the call goes on opening
    connections, one per stream, and does not come back. *)
Theorem closed_streams_reconnect_at_once self url return_json streams :
  _auth self = true ->
  0 < max_retries self ->
  forallb (closed_stream return_json) streams = true ->
  let r := _connect self url return_json streams in
  ended r = Blocks /\
  count is_get (trace r) = List.length streams /\
  sleeps (trace r) = [] /\
  vars r = initial_locals.
Proof.
  intros Hauth Hmr Hall r. subst r. unfold _connect. rewrite Hauth.
  cbn [negb].
  destruct (closed_streams_loop (set_running true self) url return_json
              initial_locals streams eq_refl Hmr Hall) as [evs [Hw [Hs Hg]]].
  rewrite Hw. cbn [guarded ended trace vars]. repeat split; assumption.
Qed.

(** *** What reaches the callbacks *)

Lemma handle_clean return_json ln :
  Forall clean_tweet (snd (handle return_json ln)).
Proof.
  unfold handle. destruct (nonempty (ln_raw ln));
    [|repeat constructor].
  unfold on_data, loads, on_tweet.
  destruct (json_loads (ln_raw ln)) as [data|]; cbn [bind];
    [|constructor].
  destruct (py_in "errors" data) as [e|[|]] eqn:Hin; cbn [bind];
    [constructor | |].
  - destruct (py_getitem data "errors"); constructor.
  - destruct return_json.
    + destruct (py_getitem data "data") as [e|inner]; cbn [bind];
        [constructor|].
      destruct (new_from_json_dict inner); repeat constructor.
    + repeat constructor. exact Hin.
Qed.

Lemma for_lines_clean self return_json lines :
  Forall clean_tweet (snd (for_lines self return_json lines)).
Proof.
  revert self. induction lines as [|ln lines IH]; intros self;
    [constructor|].
  rewrite for_lines_cons.
  pose proof (handle_clean return_json ln) as Hh.
  destruct (handle return_json ln) as [[e|] evs]; cbn [snd] in *;
    [exact Hh|].
  destruct (negb (running (lands (ln_disconnect ln) self))); [exact Hh|].
  specialize (IH (lands (ln_disconnect ln) self)).
  destruct (for_lines (lands (ln_disconnect ln) self) return_json lines)
    as [[how s] evs'].
  apply Forall_app. split; assumption.
Qed.

Lemma while_body_clean self url return_json loc r :
  Forall clean_tweet (snd (while_body self url return_json loc r)).
Proof.
  destruct r as [e|status d cb lines fin]; [repeat constructor|].
  simpl. destruct (status =? 200).
  - pose proof (for_lines_clean (lands d self) return_json lines) as Hf.
    destruct (for_lines (lands d self) return_json lines)
      as [[[| |e] s] evs]; cbn [snd] in *;
      try (repeat constructor; exact Hf).
    destruct fin; repeat constructor; exact Hf.
  - destruct cb; repeat constructor.
Qed.

Lemma while_loop_clean self url return_json loc script :
  Forall clean_tweet (snd (while_loop self url return_json loc script)).
Proof.
  revert self loc. induction script as [|r script IH]; intros self loc.
  - rewrite while_loop_nil. destruct (running self && _); constructor.
  - rewrite while_loop_cons.
    destruct (running self && _); [|constructor].
    pose proof (while_body_clean self url return_json loc r) as Hb.
    destruct (while_body self url return_json loc r)
      as [[[[| |e] s1] l1] evs1]; cbn [snd] in *; try exact Hb.
    specialize (IH s1 l1).
    destruct (while_loop s1 url return_json l1 script)
      as [[[out s2] l2] evs2].
    apply Forall_app. split; assumption.
Qed.

(** X8: [on_tweet] is never given a raw payload in which ["errors"] is found:
    on every script, for every raw value [data] handed to [on_tweet], the
    test ["errors" in data] has been made and was false. *)
Theorem no_errors_payload_reaches_on_tweet self url return_json script :
  Forall clean_tweet (trace (_connect self url return_json script)).
Proof.
  unfold _connect. destruct (negb (_auth self)); [constructor|].
  pose proof (while_loop_clean (set_running true self) url return_json
                initial_locals script) as H.
  destruct (while_loop (set_running true self) url return_json
              initial_locals script) as [[[[|e|] s] l] evs];
    cbn [snd guarded trace] in *.
  - apply Forall_app. split; [exact H | repeat constructor].
  - destruct (is_Exception e); cbn [trace]; apply Forall_app;
      (split; [exact H | repeat constructor]).
  - exact H.
Qed.

(** *** One call after another *)

(** X9: once a call of [sample] has come back - by a return or by an
    exception, also the one for a running stream or for invalid fields - the
    flag is down, and the next [sample] on the controller is not refused: it
    is the same as [_connect] on the sample endpoint. *)
Theorem sample_can_be_called_again
        self invalid_fields return_json script return_json' script' :
  running self = false ->
  let r := sample self invalid_fields return_json script in
  ended r <> Blocks ->
  running (api r) = false /\
  sample (api r) None return_json' script' =
  _connect (api r) (BASE_URL ++ "/tweets/sample/stream")%string
           return_json' script'.
Proof.
  intros Hidle r Hdone.
  assert (Hdown : running (api r) = false).
  { subst r. unfold sample in *. rewrite Hidle in *.
    destruct invalid_fields; [exact Hidle|].
    unfold _connect in *. destruct (negb (_auth self)); [exact Hidle|].
    apply guarded_cleanup in Hdone. apply Hdone. }
  split; [exact Hdown|]. unfold sample. rewrite Hdown. reflexivity.
Qed.


(** *** Calls of [on_request_error] *)

Lemma request_errors_app (t1 t2 : list event) :
  request_errors (t1 ++ t2) = request_errors t1 ++ request_errors t2.
Proof. apply flat_map_app. Qed.

Lemma callbacks_no_request_error (t : list event) :
  Forall (fun ev => is_callback ev = true) t -> request_errors t = [].
Proof.
  induction 1 as [|ev t Hev _ IH]; [reflexivity|].
  destruct ev; try discriminate; exact IH.
Qed.

Lemma while_body_request_errors self url return_json loc r :
  let '(sg, _, _, evs) := while_body self url return_json loc r in
  (request_errors evs = [] /\ sleeps evs = []) \/
  (exists status,
      status <> 200 /\ request_errors evs = [status] /\
      ((exists w, sleeps evs = [w]) \/
       (sleeps evs = [] /\ exists e, sg = Raise e))).
Proof.
  destruct r as [e|status d cb lines fin]; [left; split; reflexivity|].
  unfold while_body. destruct (Z.eqb_spec status 200) as [He|Hne].
  - pose proof (for_lines_events (lands d self) return_json lines) as Hev.
    pose proof (callbacks_no_sleep _ Hev) as Hs.
    pose proof (callbacks_no_request_error _ Hev) as Hr.
    destruct (for_lines (lands d self) return_json lines)
      as [[[| |e] s] evs]; cbn [snd] in *;
      try (left; split; assumption).
    destruct fin; left; split; assumption.
  - destruct cb as [e|]; cbn [on_request_error];
      right; exists status; (split; [exact Hne|]).
    + split; [reflexivity|]. right. split; [reflexivity|].
      exists e. reflexivity.
    + split; [reflexivity|]. left. eexists. reflexivity.
Qed.

Lemma while_loop_request_errors self url return_json loc script :
  let '(out, _, _, evs) := while_loop self url return_json loc script in
  Forall (fun s => s <> 200) (request_errors evs) /\
  (List.length (request_errors evs) = List.length (sleeps evs) \/
   ((exists e, out = Raises e) /\
    List.length (request_errors evs) = S (List.length (sleeps evs)))).
Proof.
  revert self loc. induction script as [|r script IH]; intros self loc.
  - rewrite while_loop_nil.
    destruct (running self && _); (split; [constructor | left; reflexivity]).
  - rewrite while_loop_cons.
    destruct (running self && _);
      [|split; [constructor | left; reflexivity]].
    pose proof (while_body_request_errors self url return_json loc r) as Hb.
    destruct (while_body self url return_json loc r)
      as [[[sg s1] l1] evs1].
    assert (Hone : Forall (fun s => s <> 200) (request_errors evs1)).
    { destruct Hb as [[Hr _]|[status [Hne [Hr _]]]]; rewrite Hr;
        repeat constructor; assumption. }
    destruct sg as [| |e].
    + specialize (IH s1 l1).
      destruct (while_loop s1 url return_json l1 script)
        as [[[out s2] l2] evs2].
      destruct IH as [Hall Hlen].
      rewrite request_errors_app, sleeps_app, !length_app.
      split; [apply Forall_app; split; assumption|].
      destruct Hb as [[Hr Hs]|[status [_ [Hr [[w Hs]|[_ [e He]]]]]]];
        try discriminate; rewrite Hr, Hs; cbn [List.length];
        (destruct Hlen as [Hlen|[Hout Hlen]];
         [left; lia | right; split; [exact Hout | lia]]).
    + split; [exact Hone|].
      destruct Hb as [[Hr Hs]|[status [_ [Hr [[w Hs]|[_ [e He]]]]]]];
        try discriminate; rewrite Hr, Hs; left; reflexivity.
    + split; [exact Hone|].
      destruct Hb as [[Hr Hs]|[status [_ [Hr [[w Hs]|[Hs _]]]]]];
        rewrite Hr, Hs; cbn [List.length].
      * left; reflexivity.
      * left; reflexivity.
      * right. split; [exists e; reflexivity | reflexivity].
Qed.

Lemma guarded_request_errors
      (loop : outcome * StreamApi * locals * list event) :
  request_errors (trace (guarded Tweet loop)) = request_errors (snd loop).
Proof.
  destruct loop as [[[[|e|] s] l] evs]; simpl.
  - rewrite request_errors_app, app_nil_r. reflexivity.
  - destruct (is_Exception e); simpl; rewrite request_errors_app, app_nil_r;
      reflexivity.
  - reflexivity.
Qed.

Lemma while_body_attempt self url return_json loc r :
  request_errors (snd (while_body self url return_json loc r)) =
    refused_status r /\
  List.length (sleeps (snd (while_body self url return_json loc r))) =
    (if slept_after r then 1 else 0)%nat.
Proof.
  destruct r as [e|status d cb lines fin]; [split; reflexivity|].
  unfold while_body, refused_status, slept_after.
  destruct (status =? 200).
  - pose proof (for_lines_events (lands d self) return_json lines) as Hev.
    pose proof (callbacks_no_sleep _ Hev) as Hs.
    pose proof (callbacks_no_request_error _ Hev) as Hr.
    replace (match cb with Some _ => false | None => negb true end)
      with false by (destruct cb; reflexivity).
    destruct (for_lines (lands d self) return_json lines)
      as [[[| |e] s] evs]; cbn [snd] in *.
    + destruct fin; cbn [snd]; split;
        first [exact Hr
              | change (List.length (sleeps evs) = 0%nat); rewrite Hs;
                reflexivity].
    + split; [exact Hr|].
      change (List.length (sleeps evs) = 0%nat). rewrite Hs. reflexivity.
    + split; [exact Hr|].
      change (List.length (sleeps evs) = 0%nat). rewrite Hs. reflexivity.
  - destruct cb as [e|]; cbn [on_request_error snd negb]; split; reflexivity.
Qed.

Lemma while_loop_attempts self url return_json loc script :
  let evs := snd (while_loop self url return_json loc script) in
  let consumed := firstn (count is_get evs) script in
  request_errors evs = flat_map refused_status consumed /\
  List.length (sleeps evs) = List.length (filter slept_after consumed).
Proof.
  revert self loc. induction script as [|r script IH]; intros self loc.
  - rewrite while_loop_nil. destruct (running self && _); split; reflexivity.
  - rewrite while_loop_cons.
    destruct (running self && _); [|split; reflexivity].
    pose proof (while_body_attempt self url return_json loc r) as [Hr Hs].
    pose proof (while_body_gets self url return_json loc r) as Hg.
    destruct (while_body self url return_json loc r)
      as [[[[| |e] s1] l1] evs1]; cbn [snd] in *.
    + specialize (IH s1 l1).
      destruct (while_loop s1 url return_json l1 script)
        as [[[out s2] l2] evs2].
      cbn [snd] in *. cbn zeta in *. destruct IH as [IHr IHs].
      rewrite count_app, Hg. cbn [Nat.add firstn flat_map filter].
      rewrite request_errors_app, sleeps_app, length_app, Hr, Hs, IHr, IHs.
      split; [reflexivity|].
      destruct (slept_after r); reflexivity.
    + cbn zeta. rewrite Hg. cbn [firstn flat_map filter].
      rewrite app_nil_r, Hr, Hs. split; [reflexivity|].
      destruct (slept_after r); reflexivity.
    + cbn zeta. rewrite Hg. cbn [firstn flat_map filter].
      rewrite app_nil_r, Hr, Hs. split; [reflexivity|].
      destruct (slept_after r); reflexivity.
Qed.

Lemma refused_status_split (l : list response) :
  List.length (flat_map refused_status l) =
  (List.length (filter slept_after l) +
   List.length (filter callback_raised l))%nat.
Proof.
  induction l as [|r l IH]; [reflexivity|].
  cbn [flat_map filter]. rewrite length_app, IH.
  destruct r as [e|status d [e|] lines fin];
    cbn [refused_status slept_after callback_raised];
    destruct (status =? 200) || idtac; cbn; lia.
Qed.

(** X10: [on_request_error] is called exactly once for every connection
    attempt that is answered with a status other than 200, with that status
    and in the order of the attempts, and for no other attempt; never with
    status 200.  Each call is followed by a sleep unless the callback itself
    raised: the number of calls is the number of sleeps plus the number of
    attempts whose callback raised, which is at most one. *)
Theorem one_error_callback_per_failed_attempt self url return_json script :
  let t := trace (_connect self url return_json script) in
  let consumed := firstn (count is_get t) script in
  Forall (fun s => s <> 200) (request_errors t) /\
  (List.length (sleeps t) <= List.length (request_errors t)
   <= S (List.length (sleeps t)))%nat /\
  request_errors t = flat_map refused_status consumed /\
  List.length (sleeps t) = List.length (filter slept_after consumed) /\
  List.length (request_errors t) =
    (List.length (sleeps t) +
     List.length (filter callback_raised consumed))%nat.
Proof.
  intros t consumed.
  assert (Hexact : request_errors t = flat_map refused_status consumed /\
                   List.length (sleeps t) =
                   List.length (filter slept_after consumed)).
  { subst consumed t. unfold _connect.
    destruct (negb (_auth self)); [split; reflexivity|].
    rewrite guarded_request_errors, guarded_sleeps, guarded_gets.
    apply while_loop_attempts. }
  assert (Hbound : Forall (fun s => s <> 200) (request_errors t) /\
                   (List.length (sleeps t) <= List.length (request_errors t)
                    <= S (List.length (sleeps t)))%nat).
  { subst t. unfold _connect.
    destruct (negb (_auth self)); [split; [constructor | cbn; lia]|].
    rewrite guarded_request_errors, guarded_sleeps.
    pose proof (while_loop_request_errors (set_running true self) url
                  return_json initial_locals script) as H.
    destruct (while_loop (set_running true self) url return_json
                initial_locals script) as [[[out s] l] evs].
    cbn [snd]. destruct H as [Hall [Hlen|[_ Hlen]]]; (split; [exact Hall|lia]). }
  destruct Hexact as [Hre Hsl]. destruct Hbound as [Hall Hlen].
  repeat split; try assumption; try apply Hlen.
  rewrite Hre, Hsl. apply refused_status_split.
Qed.


(** *** The form of what [on_tweet] is given *)

Section TraceInvariant.

Variable P : event -> Prop.
Hypothesis P_other : forall ev, is_tweet ev = false -> P ev.
Variable return_json : bool.
Hypothesis P_handle : forall ln, Forall P (snd (handle return_json ln)).

Lemma for_lines_invariant self lines :
  Forall P (snd (for_lines self return_json lines)).
Proof.
  revert self. induction lines as [|ln lines IH]; intros self;
    [constructor|].
  rewrite for_lines_cons.
  pose proof (P_handle ln) as Hh.
  destruct (handle return_json ln) as [[e|] evs]; cbn [snd] in *;
    [exact Hh|].
  destruct (negb (running (lands (ln_disconnect ln) self))); [exact Hh|].
  specialize (IH (lands (ln_disconnect ln) self)).
  destruct (for_lines (lands (ln_disconnect ln) self) return_json lines)
    as [[how s] evs'].
  apply Forall_app. split; assumption.
Qed.

Lemma while_loop_invariant self url loc script :
  Forall P (snd (while_loop self url return_json loc script)).
Proof.
  revert self loc. induction script as [|r script IH]; intros self loc.
  - rewrite while_loop_nil. destruct (running self && _); constructor.
  - rewrite while_loop_cons.
    destruct (running self && _); [|constructor].
    assert (Hb : Forall P (snd (while_body self url return_json loc r))).
    { destruct r as [e|status d cb lines fin];
        [repeat constructor; apply P_other; reflexivity|].
      simpl. destruct (status =? 200).
      - pose proof (for_lines_invariant (lands d self) lines) as Hf.
        destruct (for_lines (lands d self) return_json lines)
          as [[[| |e] s] evs]; cbn [snd] in *;
          try (repeat constructor; try (apply P_other; reflexivity);
               exact Hf).
        destruct fin; repeat constructor;
          try (apply P_other; reflexivity); exact Hf.
      - destruct cb; repeat constructor; apply P_other; reflexivity. }
    destruct (while_body self url return_json loc r)
      as [[[[| |e] s1] l1] evs1]; cbn [snd] in *; try exact Hb.
    specialize (IH s1 l1).
    destruct (while_loop s1 url return_json l1 script)
      as [[[out s2] l2] evs2].
    apply Forall_app. split; assumption.
Qed.

Lemma connect_invariant self url script :
  Forall P (trace (_connect self url return_json script)).
Proof.
  unfold _connect. destruct (negb (_auth self)); [constructor|].
  pose proof (while_loop_invariant (set_running true self) url
                initial_locals script) as H.
  destruct (while_loop (set_running true self) url return_json
              initial_locals script) as [[[[|e|] s] l] evs];
    cbn [snd guarded trace] in *.
  - apply Forall_app.
    split; [exact H | repeat constructor; apply P_other; reflexivity].
  - destruct (is_Exception e); cbn [trace]; apply Forall_app;
      (split; [exact H | repeat constructor; apply P_other; reflexivity]).
  - exact H.
Qed.

End TraceInvariant.

(** X23: within one call every tweet reaches [on_tweet] in the same form,
    and [return_json] decides which: a [Tweet] model when it is set, the raw
    parsed payload when it is not. *)
Theorem return_json_decides_the_form_of_tweets self url return_json script :
  Forall (tweet_form return_json)
         (trace (_connect self url return_json script)).
Proof.
  apply connect_invariant.
  - intros ev Hev. destruct ev; try exact I. discriminate Hev.
  - intros ln. unfold handle. destruct (nonempty (ln_raw ln));
      [|repeat constructor].
    unfold on_data, loads, on_tweet.
    destruct (json_loads (ln_raw ln)) as [data|]; cbn [bind];
      [|constructor].
    destruct (py_in "errors" data) as [e|[|]]; cbn [bind];
      [constructor | |].
    + destruct (py_getitem data "errors"); constructor.
    + destruct return_json.
      * destruct (py_getitem data "data") as [e|inner]; cbn [bind];
          [constructor|].
        destruct (new_from_json_dict inner); repeat constructor.
      * repeat constructor.
Qed.


(** *** One session at a time? *)

(** Every pass through the loop body begins by opening a connection. *)
Lemma while_body_opens self url return_json loc r :
  exists tail, snd (while_body self url return_json loc r) = EvGet url :: tail.
Proof.
  destruct r as [e|status d cb lines fin]; [eexists; reflexivity|].
  simpl. destruct (status =? 200).
  - destruct (for_lines (lands d self) return_json lines)
      as [[[| |e] s] evs]; try (eexists; reflexivity).
    destruct fin; eexists; reflexivity.
  - destruct cb; eexists; reflexivity.
Qed.

(** The controller of a call that is still in its loop. *)
Lemma blocked_controller self url return_json pre :
  _auth self = true ->
  ended (_connect self url return_json pre) = Blocks ->
  running (api (_connect self url return_json pre)) = true /\
  _auth (api (_connect self url return_json pre)) = true /\
  max_retries (api (_connect self url return_json pre)) = max_retries self.
Proof.
  intros Hauth Hblocks.
  destruct (connect_resume self url return_json pre [] Hauth Hblocks)
    as [Hrun _].
  split; [exact Hrun|]. clear Hrun. revert Hblocks.
  unfold _connect. rewrite Hauth. cbn [negb].
  pose proof (while_loop_settings (set_running true self) url return_json
                initial_locals pre) as [Ha [Hm _]].
  destruct (while_loop (set_running true self) url return_json
              initial_locals pre) as [[[[|e|] s] l] evs];
    cbn [guarded ended api fst snd] in *; try discriminate.
  - destruct (is_Exception e); discriminate.
  - intros _. split; [rewrite Ha | rewrite Hm]; assumption || reflexivity.
Qed.

(** The flag is also the cancel request, so it does not tell whether a call
    is in its loop: while a call is in its loop [sample] is refused, but once
    [disconnect()] has lowered the flag, and before that call has read it, a
    second [sample] is accepted; it raises the flag again and, with budget
    and a transport that answers, opens a connection of its own. *)
Lemma disconnect_admits_second_session
      self url return_json pre return_json' r rest :
  _auth self = true ->
  0 < max_retries self ->
  ended (_connect self url return_json pre) = Blocks ->
  let first := _connect self url return_json pre in
  let refused := sample (api first) None return_json' (r :: rest) in
  let second := sample (disconnect (api first)) None return_json' (r :: rest) in
  ended refused = Raises (PyTwitterError (JString "Stream is running")) /\
  trace refused = [] /\
  (forall e, ended second <> Raises (PyTwitterError e)) /\
  exists tail,
    trace second = EvGet (BASE_URL ++ "/tweets/sample/stream")%string :: tail.
Proof.
  intros Hauth Hmr Hblocks first refused second.
  destruct (blocked_controller self url return_json pre Hauth Hblocks)
    as [Hrun [Ha Hm]].
  subst refused second first. unfold sample. rewrite Hrun.
  cbn [disconnect set_running running].
  split; [reflexivity|]. split; [reflexivity|].
  set (first := api (_connect self url return_json pre)) in *.
  unfold _connect at 1 2.
  change (_auth (disconnect first)) with (_auth first).
  change (set_running true (disconnect first)) with (set_running true first).
  rewrite Ha. cbn [negb].
  rewrite while_loop_cons.
  cbn [set_running running max_retries initial_locals retries andb].
  rewrite Hm.
  replace (0 <? max_retries self) with true
    by (symmetry; apply Z.ltb_lt; assumption).
  match goal with
  | |- context [while_body ?s ?u ?j ?l r] =>
      destruct (while_body_opens s u j l r) as [tail Htail];
      destruct (while_body s u j l r) as [[[sg s1] l1] evs1]
  end.
  cbn [snd] in Htail. subst evs1.
  destruct sg as [| |e].
  - destruct (while_loop s1 _ return_json' l1 rest)
      as [[[[|e|] s2] l2] evs2]; cbn [guarded ended trace].
    + split; [discriminate | eexists; reflexivity].
    + destruct (is_Exception e) eqn:He; cbn [ended trace].
      * split; [discriminate | eexists; reflexivity].
      * split; [|eexists; reflexivity].
        intros e' H. inversion H; subst. discriminate He.
    + split; [discriminate | eexists; reflexivity].
  - cbn [guarded ended trace]. split; [discriminate | eexists; reflexivity].
  - cbn [guarded]. destruct (is_Exception e) eqn:He; cbn [ended trace].
    + split; [discriminate | eexists; reflexivity].
    + split; [|eexists; reflexivity].
      intros e' H. inversion H; subst. discriminate He.
Qed.

End Properties.

(** ** Properties of [StreamApi.__init__] and [generate_bearer_token] *)

Section Construction.

Variable b64encode : string -> string.
Variable json_loads : string -> option json.
Variable Tweet : Type.
Variable new_from_json_dict : json -> result Tweet.

Local Notation generate_bearer_token :=
  (Construct.generate_bearer_token b64encode json_loads).
Local Notation init := (Construct.__init__ b64encode json_loads).
Local Notation sample := (sample Tweet json_loads new_from_json_dict).

(** What a reply of the token endpoint must be for [data] to come back. *)
Lemma checked_reply (reply : result string) (data : json) :
  (content <- reply ;;
   data <- loads json_loads content ;;
   has_errors <- py_in "errors" data ;;
   if has_errors : bool then
     message <- py_getitem data "errors" ;;
     inl (PyTwitterError message)
   else inr data) = inr data <->
  exists content,
    reply = inr content /\ json_loads content = Some data /\
    py_in "errors" data = inr false.
Proof.
  split.
  - destruct reply as [e|content]; cbn [bind]; [discriminate|].
    unfold loads. destruct (json_loads content) as [d|] eqn:Hl; cbn [bind];
      [|discriminate].
    destruct (py_in "errors" d) as [e|[|]] eqn:Hin; cbn [bind];
      [discriminate | |].
    + destruct (py_getitem d "errors"); discriminate.
    + intros H. inversion H; subst. exists content. repeat split; assumption.
  - intros [content [Hr [Hl Hin]]]. subst reply. cbn [bind]. unfold loads.
    rewrite Hl. cbn [bind]. rewrite Hin. reflexivity.
Qed.

(** X11: [generate_bearer_token] makes exactly one POST, to the token
    endpoint, with the header [Basic b64(key:secret)], whatever comes back;
    and it returns [data] exactly when the reply is JSON in which
    ["errors"] is not found: a reply with an [errors] field is never
    returned as a token. *)
Theorem bearer_token_request_and_answer consumer_key consumer_secret reply :
  let '(answer, sent) :=
    generate_bearer_token consumer_key consumer_secret reply in
  (exists p,
      sent = [p] /\
      Construct.post_url p = "https://api.twitter.com/oauth2/token" /\
      Construct.lookup_header p =
        Some ("Basic " ++
              b64encode (consumer_key ++ ":" ++ consumer_secret))%string) /\
  (forall data,
      answer = inr data <->
      exists content,
        reply = inr content /\ json_loads content = Some data /\
        py_in "errors" data = inr false) /\
  (forall content fields message,
      reply = inr content ->
      json_loads content = Some (JObject fields) ->
      lookup "errors" fields = Some message ->
      answer = inl (PyTwitterError message)).
Proof.
  unfold Construct.generate_bearer_token. split; [|split].
  - eexists. split; [reflexivity|]. split; reflexivity.
  - intros data. apply checked_reply.
  - intros content fields message Hr Hl Hf. subst reply. cbn [bind].
    unfold loads. rewrite Hl. cbn [bind py_in py_getitem]. rewrite Hf.
    reflexivity.
Qed.

(** X12: a controller that [__init__] returns is idle and has a credential:
    the flag is down, the session is open, [max_retries] is the argument.
    Its token is the bearer token when one is given, and then nothing is
    sent; otherwise key and secret are both given and the token is the
    [access_token] field of an error-free reply to one POST. *)
Theorem init_gives_an_idle_controller_with_credential
        bearer_token consumer_key consumer_secret budget reply self token sent :
  init bearer_token consumer_key consumer_secret budget reply
    = (inr (self, token), sent) ->
  self = {| running := false; _auth := true; max_retries := budget;
            session_closed := false |} /\
  ((Construct.truthy bearer_token = true /\
    token = JString (Construct.text bearer_token) /\ sent = []) \/
   (Construct.truthy bearer_token = false /\
    Construct.truthy consumer_key = true /\
    Construct.truthy consumer_secret = true /\
    List.length sent = 1%nat /\
    exists content data,
      reply = inr content /\ json_loads content = Some data /\
      py_in "errors" data = inr false /\
      py_getitem data "access_token" = inr token)).
Proof.
  unfold Construct.__init__.
  destruct (Construct.truthy bearer_token).
  - intros H. inversion H; subst. split; [reflexivity|].
    left. repeat split.
  - cbn [forallb].
    destruct (Construct.truthy consumer_key); cbn [andb];
      [|discriminate].
    destruct (Construct.truthy consumer_secret); cbn [andb];
      [|discriminate].
    unfold Construct.generate_bearer_token.
    match goal with
    | |- context [bind ?m _] =>
        match m with
        | bind reply _ => destruct m as [e|data] eqn:Hm
        end
    end; cbn [bind]; [discriminate|].
    destruct (py_getitem data "access_token") as [e|tok] eqn:Htok;
      cbn [bind]; [discriminate|].
    intros H. inversion H; subst. split; [reflexivity|].
    right. repeat split.
    apply checked_reply in Hm. destruct Hm as [content [Hr [Hl Hin]]].
    exists content, data. repeat split; assumption.
Qed.

(** X13: [__init__] raises [PyTwitterError("Need oauth")] without sending
    anything exactly when no bearer token is given and the consumer key or
    the consumer secret is missing or empty. *)
Theorem init_needs_a_credential
        bearer_token consumer_key consumer_secret budget reply :
  init bearer_token consumer_key consumer_secret budget reply
    = (inl (PyTwitterError (JString "Need oauth")), []) <->
  Construct.truthy bearer_token = false /\
  Construct.truthy consumer_key && Construct.truthy consumer_secret = false.
Proof.
  unfold Construct.__init__.
  destruct (Construct.truthy bearer_token).
  - split; [discriminate | intros [H _]; discriminate].
  - cbn [forallb]. rewrite andb_true_r.
    destruct (Construct.truthy consumer_key && Construct.truthy consumer_secret).
    + unfold Construct.generate_bearer_token.
      split; [discriminate | intros [_ H]; discriminate].
    + split; [intros _; split; reflexivity | reflexivity].
Qed.

(** X14: the first [sample] on a controller that [__init__] returned, with
    valid fields, is accepted and runs the loop: it raises neither
    ["Need auth"] nor ["Stream is running"], and no [Exception] at all
    leaves it. *)
Theorem first_sample_on_a_new_controller
        bearer_token consumer_key consumer_secret budget reply self token sent
        return_json script :
  init bearer_token consumer_key consumer_secret budget reply
    = (inr (self, token), sent) ->
  let r := sample self None return_json script in
  r = guarded Tweet
        (while_loop Tweet json_loads new_from_json_dict
           (set_running true self)
           (BASE_URL ++ "/tweets/sample/stream")%string return_json
           initial_locals script) /\
  (forall e, ended r = Raises e -> is_Exception e = false).
Proof.
  intros Hinit r.
  assert (Hself : self = {| running := false; _auth := true;
                            max_retries := budget;
                            session_closed := false |}).
  { unfold Construct.__init__ in Hinit.
    destruct (Construct.truthy bearer_token);
      [inversion Hinit; reflexivity|].
    destruct (forallb Construct.truthy [consumer_key; consumer_secret]);
      [|discriminate].
    destruct (Construct.generate_bearer_token _ _ _ _ _) as [resp sent'].
    destruct resp as [e|data]; cbn [bind] in Hinit; [discriminate|].
    destruct (py_getitem data "access_token"); cbn [bind] in Hinit;
      [discriminate|].
    inversion Hinit. reflexivity. }
  assert (Hr : r = guarded Tweet
                 (while_loop Tweet json_loads new_from_json_dict
                    (set_running true self)
                    (BASE_URL ++ "/tweets/sample/stream")%string return_json
                    initial_locals script)).
  { subst r self. reflexivity. }
  split; [exact Hr|].
  intros e He. rewrite Hr in He.
  apply (guarded_raises Tweet) in He. apply He.
Qed.

End Construction.


(** ** Properties of the REST client *)

Section RestProperties.

Variable field : Type.
Variable param : Type.
Variable enf_comma_separated : string -> field -> result param.
Variable User : Type.
Variable Includes : Type.
Variable User_new_from_json_dict : json -> result User.
Variable Includes_new_from_json_dict : json -> result Includes.
Variable json_loads : string -> option json.
Variable repr : string -> string.

Local Notation _parse_response := (Rest._parse_response json_loads repr).
Local Notation users_by_ids :=
  (Rest.users_by_ids field param enf_comma_separated User Includes
     User_new_from_json_dict Includes_new_from_json_dict json_loads repr).
Local Notation user_by_id :=
  (Rest.user_by_id field param enf_comma_separated User Includes
     User_new_from_json_dict Includes_new_from_json_dict json_loads repr).

(** X15: of the four ways to build an [Api], only a bearer token sets the
    credential: a client that [__init__] returns has [_auth] exactly when a
    non-empty bearer token was given.  [__init__] raises
    [Exception("Need oauth")] exactly when there is no bearer token and no
    key and secret together with one of: application-only auth, an access
    token and secret, the oauth flow. *)
Theorem only_a_bearer_token_authenticates
        bearer_token consumer_key consumer_secret access_token access_secret
        application_only_auth oauth_flow :
  let built :=
    Rest.__init__ bearer_token consumer_key consumer_secret access_token
                  access_secret application_only_auth oauth_flow in
  (forall self, built = inr self ->
                Rest._auth self = Construct.truthy bearer_token) /\
  (built = inl (Rest.PlainException "Need oauth") <->
   Construct.truthy bearer_token = false /\
   Construct.truthy consumer_key && Construct.truthy consumer_secret &&
   (application_only_auth || oauth_flow ||
    (Construct.truthy access_token && Construct.truthy access_secret))
   = false).
Proof.
  unfold Rest.__init__. cbn [forallb].
  destruct (Construct.truthy bearer_token),
           (Construct.truthy consumer_key),
           (Construct.truthy consumer_secret),
           (Construct.truthy access_token),
           (Construct.truthy access_secret),
           application_only_auth, oauth_flow; cbn;
    (split;
     [intros self H; inversion H; reflexivity
     |split; [intros H; try discriminate H; split; reflexivity
             |intros [H1 H2]; try discriminate H1; try discriminate H2;
              reflexivity]]).
Qed.

(** X16: a client built without a bearer token cannot make a request:
    [users_by_ids] and [user_by_id] raise and nothing is sent to the server,
    whatever the arguments; when the fields of a lookup validate, what it
    raises is [Exception("The twitter.Api instance must be
    authenticated.")]. *)
Theorem client_without_bearer_token_sends_nothing
        bearer_token consumer_key consumer_secret access_token access_secret
        application_only_auth oauth_flow self
        ids user_id user_fields tweet_fields expansions return_json reply :
  Construct.truthy bearer_token = false ->
  Rest.__init__ bearer_token consumer_key consumer_secret access_token
                access_secret application_only_auth oauth_flow = inr self ->
  let many := users_by_ids self ids user_fields tweet_fields expansions
                           return_json reply in
  let one := user_by_id self user_id user_fields tweet_fields expansions
                        return_json reply in
  snd many = [] /\ (exists e, fst many = inl e) /\
  snd one = [] /\ (exists e, fst one = inl e) /\
  ((exists a1 a2 a3,
       enf_comma_separated "user_fields" user_fields = inr a1 /\
       enf_comma_separated "tweet_fields" tweet_fields = inr a2 /\
       enf_comma_separated "expansions" expansions = inr a3) ->
   fst one = inl (Rest.PlainException
                    "The twitter.Api instance must be authenticated.")) /\
  ((exists a0 a1 a2 a3,
       enf_comma_separated "ids" ids = inr a0 /\
       enf_comma_separated "user_fields" user_fields = inr a1 /\
       enf_comma_separated "tweet_fields" tweet_fields = inr a2 /\
       enf_comma_separated "expansions" expansions = inr a3) ->
   fst many = inl (Rest.PlainException
                     "The twitter.Api instance must be authenticated.")).
Proof.
  intros Hb Hinit many one.
  assert (Hauth : Rest._auth self = false).
  { unfold Rest.__init__ in Hinit. rewrite Hb in Hinit.
    repeat match type of Hinit with
           | (if ?c then _ else _) = _ => destruct c
           end; inversion Hinit; reflexivity. }
  subst many one. unfold Rest.users_by_ids, Rest.user_by_id, Rest._request.
  rewrite Hauth. cbn [andb negb].
  destruct (enf_comma_separated "ids" ids) as [e0|a0];
    destruct (enf_comma_separated "user_fields" user_fields) as [e1|a1];
    destruct (enf_comma_separated "tweet_fields" tweet_fields) as [e2|a2];
    destruct (enf_comma_separated "expansions" expansions) as [e3|a3];
    cbn [bind fst snd Rest.and_then];
    (repeat split; try (eexists; reflexivity);
     try (intros [b1 [b2 [b3 [H1 [H2 H3]]]]]; discriminate);
     try (intros [b0 [b1 [b2 [b3 [H0 [H1 [H2 H3]]]]]]]; discriminate)).
Qed.

(** X17: [_parse_response] returns [data] exactly when the body is JSON and
    ["errors"] is not found in it; a body that is not JSON raises
    [PyTwitterError("Unknown error: ...")], and a dict with an [errors]
    field raises [PyTwitterError] with that field. *)
Theorem parse_response_returns_error_free_json content :
  (forall data,
      _parse_response content = inr data <->
      json_loads content = Some data /\ py_in "errors" data = inr false) /\
  (json_loads content = None ->
   _parse_response content =
   inl (Rest.Known (PyTwitterError
                      (JString ("Unknown error: " ++ repr content)%string)))) /\
  (forall fields message,
      json_loads content = Some (JObject fields) ->
      lookup "errors" fields = Some message ->
      _parse_response content = inl (Rest.Known (PyTwitterError message))).
Proof.
  unfold Rest._parse_response. split; [|split].
  - intros data. destruct (json_loads content) as [d|].
    + destruct (py_in "errors" d) as [e|[|]] eqn:Hin;
        cbn [bind Rest.known].
      * split; [discriminate | intros [H1 H2]; inversion H1; subst; congruence].
      * destruct (py_getitem d "errors"); cbn [bind Rest.known];
          (split; [discriminate
                  | intros [H1 H2]; inversion H1; subst; congruence]).
      * split.
        -- intros H. inversion H; subst. split; [reflexivity | exact Hin].
        -- intros [H1 _]. inversion H1; subst. reflexivity.
    + split; [discriminate | intros [H _]; discriminate].
  - intros H. rewrite H. reflexivity.
  - intros fields message Hl Hf. rewrite Hl. cbn [py_in py_getitem].
    rewrite Hf. reflexivity.
Qed.

(** X18: [users_by_ids] sends at most one request, and which one does not
    depend on the reply or on [return_json]: nothing when a field is refused
    by [enf_comma_separated] or the client has no credential, otherwise one
    authenticated GET of [/users] with the four validated fields in the
    order [ids], [user.fields], [tweet.fields], [expansions]. *)
Theorem users_by_ids_sends_one_request
        self ids user_fields tweet_fields expansions return_json reply :
  let sent := snd (users_by_ids self ids user_fields tweet_fields expansions
                                return_json reply) in
  match enf_comma_separated "ids" ids,
        enf_comma_separated "user_fields" user_fields,
        enf_comma_separated "tweet_fields" tweet_fields,
        enf_comma_separated "expansions" expansions with
  | inr a1, inr a2, inr a3, inr a4 =>
      sent = if Rest._auth self then [Rest.users_request param a1 a2 a3 a4] else []
  | _, _, _, _ => sent = []
  end.
Proof.
  unfold Rest.users_by_ids, Rest._request.
  destruct (enf_comma_separated "ids" ids) as [e0|a0];
    destruct (enf_comma_separated "user_fields" user_fields) as [e1|a1];
    destruct (enf_comma_separated "tweet_fields" tweet_fields) as [e2|a2];
    destruct (enf_comma_separated "expansions" expansions) as [e3|a3];
    cbn [bind snd]; try reflexivity.
  destruct (Rest._auth self); reflexivity.
Qed.

(** X19: with [return_json] set, on a reply that is a JSON dict without
    [errors] and with a [data] field, [users_by_ids] returns that field and
    the [includes] field untouched, [None] standing for a missing
    [includes]. *)
Theorem users_by_ids_returns_the_raw_pair
        self ids user_fields tweet_fields expansions content fields inner
        a1 a2 a3 a4 :
  Rest._auth self = true ->
  enf_comma_separated "ids" ids = inr a1 ->
  enf_comma_separated "user_fields" user_fields = inr a2 ->
  enf_comma_separated "tweet_fields" tweet_fields = inr a3 ->
  enf_comma_separated "expansions" expansions = inr a4 ->
  json_loads content = Some (JObject fields) ->
  lookup "errors" fields = None ->
  lookup "data" fields = Some inner ->
  users_by_ids self ids user_fields tweet_fields expansions true
               (inr content) =
  (inr (Rest.RawPair Includes (list User) inner (Rest.includes_of fields)),
   [Rest.users_request param a1 a2 a3 a4]).
Proof.
  intros Hauth H1 H2 H3 H4 Hl He Hd.
  unfold Rest.users_by_ids, Rest._request, Rest._parse_response,
    Rest.data_and_includes, Rest.includes_of, Rest.users_request.
  rewrite H1, H2, H3, H4, Hauth. cbn [bind andb negb Rest.known Rest.and_then].
  rewrite Hl. cbn [py_in py_getitem]. rewrite He.
  cbn [bind Rest.known Rest.and_then py_getitem]. rewrite Hd.
  cbn [bind Rest.known Rest.and_then]. reflexivity.
Qed.

Lemma comprehension_items {A : Type} (f : json -> result A) items out :
  Rest.comprehension f items = inr out ->
  Forall2 (fun d a => f d = inr a) items out.
Proof.
  revert out. induction items as [|d items IH]; intros out; cbn.
  - intros H. inversion H. constructor.
  - destruct (f d) as [e|a] eqn:Hf; cbn [bind]; [discriminate|].
    destruct (Rest.comprehension f items) as [e|others]; cbn [bind];
      [discriminate|].
    intros H. inversion H; subst. constructor; [exact Hf | apply IH; reflexivity].
Qed.

(** What an answer of a lookup was made from. *)
Lemma lookup_answer_origin (reply : result string) data includes :
  Rest.and_then (Rest.known reply)
    (fun c => Rest.and_then (_parse_response c)
       (fun d => Rest.known (Rest.data_and_includes d)))
  = inr (data, includes) ->
  exists body fields,
    reply = inr body /\ json_loads body = Some (JObject fields) /\
    lookup "errors" fields = None /\ lookup "data" fields = Some data /\
    includes = Rest.includes_of fields.
Proof.
  intros H. destruct reply as [e|body]; cbn in H; [discriminate|].
  unfold Rest._parse_response in H.
  destruct (json_loads body) as [d|] eqn:Hl; cbn in H; [|discriminate].
  destruct (py_in "errors" d) as [e|[|]] eqn:Hin; cbn in H;
    [discriminate | |].
  - destruct (py_getitem d "errors"); discriminate.
  - unfold Rest.data_and_includes in H.
    destruct d as [| | | | |fields]; cbn in H; try discriminate.
    cbn in Hin.
    destruct (lookup "errors" fields) eqn:He; [discriminate|].
    destruct (lookup "data" fields) as [inner|] eqn:Hd; cbn in H;
      [|discriminate].
    inversion H; subst. exists body, fields. repeat split; assumption.
Qed.

Lemma lookup_steps {A : Type} (reply : result string)
      (k : json * json -> Rest.answer A) (v : A) :
  Rest.and_then (Rest.known reply)
    (fun c => Rest.and_then (_parse_response c)
       (fun d => Rest.and_then (Rest.known (Rest.data_and_includes d)) k))
  = inr v ->
  exists pair,
    Rest.and_then (Rest.known reply)
      (fun c => Rest.and_then (_parse_response c)
         (fun d => Rest.known (Rest.data_and_includes d)))
    = inr pair /\ k pair = inr v.
Proof.
  destruct reply as [e|body]; cbn [Rest.known Rest.and_then];
    [discriminate|].
  destruct (_parse_response body) as [e|d]; cbn [Rest.and_then];
    [discriminate|].
  destruct (Rest.known (Rest.data_and_includes d)) as [e|pair];
    cbn [Rest.and_then]; [discriminate|].
  intros H. exists pair. split; [reflexivity | exact H].
Qed.

(** X20: every answer of [users_by_ids] comes from a reply that is a JSON dict
    without [errors] and with a [data] field, sent to a client with a
    credential.  With [return_json] it is that field and the [includes]
    field ([None] when missing); otherwise it is one [User] for each element
    of [data], in the same order, and the [Includes] built from the
    [includes] field. *)
Theorem users_by_ids_answer
        self ids user_fields tweet_fields expansions return_json reply v :
  fst (users_by_ids self ids user_fields tweet_fields expansions
                    return_json reply) = inr v ->
  Rest._auth self = true /\
  exists body fields inner,
    reply = inr body /\ json_loads body = Some (JObject fields) /\
    lookup "errors" fields = None /\ lookup "data" fields = Some inner /\
    match v with
    | Rest.RawPair _ _ data includes =>
        return_json = true /\ data = inner /\
        includes = Rest.includes_of fields
    | Rest.Models _ _ users includes =>
        return_json = false /\
        (exists items,
            Rest.py_iter inner = inr items /\
            Forall2 (fun d u => User_new_from_json_dict d = inr u) items users)
        /\ Includes_new_from_json_dict (Rest.includes_of fields) = inr includes
    end.
Proof.
  unfold Rest.users_by_ids, Rest._request.
  destruct (enf_comma_separated "ids" ids) as [e0|a0];
    destruct (enf_comma_separated "user_fields" user_fields) as [e1|a1];
    destruct (enf_comma_separated "tweet_fields" tweet_fields) as [e2|a2];
    destruct (enf_comma_separated "expansions" expansions) as [e3|a3];
    cbn [bind fst]; try discriminate.
  destruct (Rest._auth self); cbn [andb negb fst]; [|discriminate].
  intros H. split; [reflexivity|].
  apply lookup_steps in H. destruct H as [[inner includes] [Hpair Hk]].
  apply lookup_answer_origin in Hpair.
  destruct Hpair as [body [fields [Hr [Hl [He [Hd Hi]]]]]].
  exists body, fields, inner. repeat split; try assumption.
  destruct return_json.
  - inversion Hk; subst. repeat split.
  - destruct (Rest.py_iter inner) as [e|items] eqn:Hit;
      cbn [bind Rest.known] in Hk; [discriminate|].
    destruct (Rest.comprehension User_new_from_json_dict items)
      as [e|users] eqn:Hc; cbn [bind Rest.known] in Hk; [discriminate|].
    destruct (Includes_new_from_json_dict includes) as [e|inc] eqn:Hinc;
      cbn [bind Rest.known] in Hk; [discriminate|].
    inversion Hk; subst. split; [reflexivity|]. split.
    + exists items. split; [reflexivity|].
      apply comprehension_items. exact Hc.
    + exact Hinc.
Qed.

(** X21: every answer of [user_by_id] comes from a reply that is a JSON dict
    without [errors] and with a [data] field, sent to a client with a
    credential.  With [return_json] it is that field and the [includes]
    field ([None] when missing); otherwise it is the [User] built from
    [data] and the [Includes] built from the [includes] field. *)
Theorem user_by_id_answer
        self user_id user_fields tweet_fields expansions return_json reply v :
  fst (user_by_id self user_id user_fields tweet_fields expansions
                  return_json reply) = inr v ->
  Rest._auth self = true /\
  exists body fields inner,
    reply = inr body /\ json_loads body = Some (JObject fields) /\
    lookup "errors" fields = None /\ lookup "data" fields = Some inner /\
    match v with
    | Rest.RawPair _ _ data includes =>
        return_json = true /\ data = inner /\
        includes = Rest.includes_of fields
    | Rest.Models _ _ user includes =>
        return_json = false /\
        User_new_from_json_dict inner = inr user /\
        Includes_new_from_json_dict (Rest.includes_of fields) = inr includes
    end.
Proof.
  unfold Rest.user_by_id, Rest._request.
  destruct (enf_comma_separated "user_fields" user_fields) as [e1|a1];
    destruct (enf_comma_separated "tweet_fields" tweet_fields) as [e2|a2];
    destruct (enf_comma_separated "expansions" expansions) as [e3|a3];
    cbn [bind fst]; try discriminate.
  destruct (Rest._auth self); cbn [andb negb fst]; [|discriminate].
  intros H. split; [reflexivity|].
  apply lookup_steps in H. destruct H as [[inner includes] [Hpair Hk]].
  apply lookup_answer_origin in Hpair.
  destruct Hpair as [body [fields [Hr [Hl [He [Hd Hi]]]]]].
  exists body, fields, inner. repeat split; try assumption.
  destruct return_json.
  - inversion Hk; subst. repeat split.
  - destruct (User_new_from_json_dict inner) as [e|user] eqn:Hu;
      cbn [bind Rest.known] in Hk; [discriminate|].
    destruct (Includes_new_from_json_dict includes) as [e|inc] eqn:Hinc;
      cbn [bind Rest.known] in Hk; [discriminate|].
    inversion Hk; subst. repeat split; assumption.
Qed.

(** X22: without [return_json], on a reply that is a JSON dict without
    [errors] whose [data] field the [User] model accepts, [user_by_id] sends
    one authenticated GET of [/users/<user_id>] and returns the [User] built
    from [data] with the [Includes] built from the [includes] field, [None]
    standing for a missing [includes]. *)
Theorem user_by_id_builds_the_models
        self user_id user_fields tweet_fields expansions content fields inner
        a1 a2 a3 user includes :
  Rest._auth self = true ->
  enf_comma_separated "user_fields" user_fields = inr a1 ->
  enf_comma_separated "tweet_fields" tweet_fields = inr a2 ->
  enf_comma_separated "expansions" expansions = inr a3 ->
  json_loads content = Some (JObject fields) ->
  lookup "errors" fields = None ->
  lookup "data" fields = Some inner ->
  User_new_from_json_dict inner = inr user ->
  Includes_new_from_json_dict (Rest.includes_of fields) = inr includes ->
  user_by_id self user_id user_fields tweet_fields expansions false
             (inr content) =
  (inr (Rest.Models Includes User user includes),
   [Rest.user_request param user_id a1 a2 a3]).
Proof.
  intros Hauth H1 H2 H3 Hl He Hd Hu Hi.
  unfold Rest.user_by_id, Rest._request, Rest._parse_response,
    Rest.data_and_includes, Rest.user_request.
  unfold Rest.includes_of in Hi.
  rewrite H1, H2, H3, Hauth. cbn [bind andb negb Rest.known Rest.and_then].
  rewrite Hl. cbn [py_in py_getitem]. rewrite He.
  cbn [bind Rest.known Rest.and_then py_getitem]. rewrite Hd.
  cbn [bind Rest.known Rest.and_then]. rewrite Hu. cbn [bind].
  rewrite Hi. reflexivity.
Qed.


End RestProperties.


(** ** Concrete runs *)

Import Wire.

(** C1 as stated fails: with [max_retries = 2], a refused attempt followed by
    a successful connection leaves [retries] at 1, not 0, while the loop asks
    for the next connection; a second refusal later, not consecutive to the
    first, uses up the budget and the fourth response is never asked for. *)
Lemma retries_reset_counterexample :
  let after_success :=
    connect (controller 2) url false
            [refused 503; ok [keep_alive; tweet]] in
  let whole :=
    connect (controller 2) url false
            [refused 503; ok [keep_alive; tweet]; refused 500; ok [tweet]] in
  ended after_success = Blocks /\
  retries (vars after_success) = 1 /\
  retries (vars after_success) <> 0 /\
  ended whole = Returns /\
  count is_get (trace whole) = 3%nat.
Proof. vm_compute. repeat split. discriminate. Qed.

(** C2 as stated fails: with [max_retries = 10] and ten refusals in a row the
    controller sleeps 5, 10, 20, 40, 80, 160, 320 and stops after the seventh
    attempt with three retries of the budget left; there is no eighth
    delay. *)
Lemma backoff_cap_counterexample :
  let r := connect (controller 10) url false (repeat (refused 503) 10) in
  sleeps (trace r) = [5; 10; 20; 40; 80; 160; 320] /\
  nth_error (sleeps (trace r)) 7 = None /\
  backoff_formula 5 320 8 = 320 /\
  sleeps (trace r) <> map (backoff_formula 5 320) (seq 1 10) /\
  ended r = Returns /\
  retries (vars r) = 7 /\
  count is_get (trace r) = 7%nat.
Proof. vm_compute. repeat split. discriminate. Qed.

(** Nine refusals with [max_retries = 10]: seven sleeps, then the loop is left. *)
Lemma backoff_doubles_then_stops_witness :
  _auth (controller 10) = true /\
  forallb refusal (repeat (refused 503) 9) = true /\
  (let r := connect (controller 10) url false (repeat (refused 503) 9) in
   let limit := Nat.min (Z.to_nat (max_retries (controller 10))) 7 in
   sleeps (trace r) =
     map (backoff_formula 5 320)
         (seq 1 (Nat.min (List.length (repeat (refused 503) 9)) limit)) /\
   Forall (fun s => s <= http_error_wait_max) (sleeps (trace r)) /\
   ended r =
     (if (List.length (repeat (refused 503) 9) <? limit)%nat
      then Blocks else Returns)).
Proof.
  split; [reflexivity|]. split; [reflexivity|].
  apply (backoff_doubles_then_stops json json_loads new_from_json_dict
           (controller 10) url false (repeat (refused 503) 9));
    reflexivity.
Defined.

(** C3 as stated fails: three refusals with [max_retries = 3] end the call
    by a normal return; no exception reaches the caller. *)
Lemma exhaustion_report_counterexample :
  let r := connect (controller 3) url false
                   (repeat (refused 503) 3 ++ [ok [tweet]]) in
  ended r = Returns /\
  (forall e, ended r <> Raises e) /\
  sleeps (trace r) = [5; 10; 20] /\
  count is_get (trace r) = 3%nat.
Proof. vm_compute. repeat split. discriminate. Qed.

(** Two refusals and a transport fault with [max_retries = 3]. *)
Lemma exhaustion_returns_silently_witness :
  _auth (controller 3) = true /\
  forallb failed_attempt
          [refused 503; refused 500; GetRaises RequestException] = true /\
  Z.of_nat (List.length [refused 503; refused 500; GetRaises RequestException])
    = max_retries (controller 3) /\
  (let r := connect (controller 3) url false
              ([refused 503; refused 500; GetRaises RequestException]
                 ++ [ok [tweet]]) in
   r = connect (controller 3) url false
         [refused 503; refused 500; GetRaises RequestException] /\
   ended r = Returns /\
   (count is_get (trace r) <=
    List.length [refused 503; refused 500; GetRaises RequestException])%nat /\
   session_closed (api r) = true /\ running (api r) = false).
Proof.
  split; [reflexivity|]. split; [reflexivity|]. split; [reflexivity|].
  apply (exhaustion_returns_silently json json_loads new_from_json_dict
           (controller 3) url false
           [refused 503; refused 500; GetRaises RequestException]
           [ok [tweet]]);
    reflexivity.
Defined.

(** C4 as stated fails: a payload with an [errors] field, and a line that is
    not JSON, both end the call by a normal return with the error logged;
    nothing is raised to the caller. *)
Lemma protocol_error_counterexample :
  let r1 := connect (controller 3) url false [ok [tweet; errors; tweet]] in
  let r2 := connect (controller 3) url false [ok [garbage; keep_alive]] in
  ended r1 = Returns /\ (forall e, ended r1 <> Raises e) /\
  trace r1 =
    [EvGet url; EvHeaders; EvTweet (Raw tweet_json);
     EvLog (PyTwitterError (JArray [JString "stream closed"])); EvClose] /\
  ended r2 = Returns /\ (forall e, ended r2 <> Raises e) /\
  trace r2 = [EvGet url; EvHeaders; EvLog JSONDecodeError; EvClose].
Proof. vm_compute. repeat split; discriminate. Qed.

(** A line that is not JSON, on the second connection of a call. *)
Lemma protocol_error_logged_not_raised_witness :
  _auth (controller 3) = true /\
  ended (connect (controller 3) url false [refused 503]) = Blocks /\
  fst (fst (for_lines json json_loads new_from_json_dict
              (lands false (api (connect (controller 3) url false [refused 503])))
              false [keep_alive; tweet])) = ForEnd /\
  nonempty (ln_raw garbage) = true /\
  json_loads (ln_raw garbage) = None /\
  (let p := connect (controller 3) url false [refused 503] in
   let r := connect (controller 3) url false
              ([refused 503] ++
               Response 200 false None
                 ([keep_alive; tweet] ++ garbage :: [keep_alive])
                 (StreamCloses false) :: [ok [tweet]]) in
   ended r = Returns /\
   (exists e,
       (e = JSONDecodeError \/ exists message, e = PyTwitterError message) /\
       trace r =
       trace p ++ EvGet url :: EvHeaders ::
         snd (for_lines json json_loads new_from_json_dict
                (lands false (api p)) false [keep_alive; tweet]) ++
         [EvLog e; EvClose]) /\
   count is_get (trace r) = S (count is_get (trace p)) /\
   session_closed (api r) = true /\ running (api r) = false).
Proof.
  split; [reflexivity|]. split; [reflexivity|]. split; [reflexivity|].
  split; [reflexivity|]. split; [reflexivity|].
  apply (protocol_error_logged_not_raised json json_loads new_from_json_dict
           (controller 3) url false [refused 503] false None
           [keep_alive; tweet] garbage [keep_alive] (StreamCloses false)
           [ok [tweet]]);
    try reflexivity.
  left. reflexivity.
Defined.

(** An [errors] payload after a keep-alive and a tweet. *)
Lemma errors_field_never_dispatched_witness :
  _auth (controller 3) = true /\
  ended (connect (controller 3) url false [refused 503]) = Blocks /\
  fst (fst (for_lines json json_loads new_from_json_dict
              (lands false (api (connect (controller 3) url false [refused 503])))
              false [keep_alive; tweet])) = ForEnd /\
  nonempty (ln_raw errors) = true /\
  json_loads (ln_raw errors) =
    Some (JObject [("errors", JArray [JString "stream closed"])]) /\
  lookup "errors" [("errors", JArray [JString "stream closed"])] =
    Some (JArray [JString "stream closed"]) /\
  (let p := connect (controller 3) url false [refused 503] in
   let r := connect (controller 3) url false
              ([refused 503] ++
               Response 200 false None
                 ([keep_alive; tweet] ++ errors :: [tweet])
                 (StreamCloses false) :: [ok [tweet]]) in
   handle json json_loads new_from_json_dict false errors =
     (Some (PyTwitterError (JArray [JString "stream closed"])), []) /\
   count is_tweet (trace r) =
     (count is_tweet (trace p) +
      count is_tweet
        (snd (for_lines json json_loads new_from_json_dict
                (lands false (api p)) false [keep_alive; tweet])))%nat /\
   ended r = Returns /\
   session_closed (api r) = true /\ running (api r) = false /\
   vars r = vars p /\
   sleeps (trace r) = sleeps (trace p)).
Proof.
  split; [reflexivity|]. split; [reflexivity|]. split; [reflexivity|].
  split; [reflexivity|]. split; [reflexivity|]. split; [reflexivity|].
  apply (errors_field_never_dispatched json json_loads new_from_json_dict
           (controller 3) url false [refused 503] false None
           [keep_alive; tweet] errors [tweet] (StreamCloses false)
           [ok [tweet]] [("errors", JArray [JString "stream closed"])]
           (JArray [JString "stream closed"]));
    reflexivity.
Defined.



(** [disconnect()] lands during the third of five lines. *)
Lemma disconnect_stops_after_current_line_witness :
  _auth (controller 3) = true /\
  ended (connect (controller 3) url false [refused 503]) = Blocks /\
  ln_disconnect last_tweet = true /\
  (let p := connect (controller 3) url false [refused 503] in
   let r := connect (controller 3) url false
              ([refused 503] ++
               Response 200 false None
                 ([keep_alive; tweet] ++ last_tweet :: [tweet; keep_alive])
                 (StreamCloses false) :: [ok [tweet]]) in
   let handled :=
     snd (for_lines json json_loads new_from_json_dict
            (lands false (api p)) false ([keep_alive; tweet] ++ [last_tweet])) in
   ended r <> Blocks /\
   running (api r) = false /\
   (exists tail,
       trace r = trace p ++ EvGet url :: EvHeaders :: handled ++ tail /\
       count is_callback tail = 0%nat /\ count is_get tail = 0%nat) /\
   (count is_callback handled <= List.length [keep_alive; tweet] + 1)%nat).
Proof.
  split; [reflexivity|]. split; [reflexivity|]. split; [reflexivity|].
  apply (disconnect_stops_after_current_line json json_loads
           new_from_json_dict (controller 3) url false [refused 503] false
           None [keep_alive; tweet] last_tweet [tweet; keep_alive]
           (StreamCloses false) [ok [tweet]]);
    reflexivity.
Defined.

(** A run ended by a [KeyboardInterrupt] in [on_tweet]. *)
Lemma session_closed_on_every_exit_witness :
  _auth (controller 3) = true /\
  ended (connect (controller 3) url false
                 [ok [tweet; interrupted_tweet; tweet]]) <> Blocks /\
  (let r := connect (controller 3) url false
                    [ok [tweet; interrupted_tweet; tweet]] in
   session_closed (api r) = true /\
   running (api r) = false /\
   exists evs, trace r = evs ++ [EvClose]).
Proof.
  split; [reflexivity|]. split; [vm_compute; discriminate|].
  apply (session_closed_on_every_exit json json_loads new_from_json_dict
           (controller 3) url false [ok [tweet; interrupted_tweet; tweet]]);
    [reflexivity | vm_compute; discriminate].
Defined.

(** [sample] on a controller whose first call is still in its loop. *)
Lemma sample_fails_fast_when_running_witness :
  running (api (connect (controller 3) url false [ok [tweet]])) = true /\
  (let r := sample json json_loads new_from_json_dict
                   (api (connect (controller 3) url false [ok [tweet]]))
                   None false [ok [tweet]] in
   ended r = Raises (PyTwitterError (JString "Stream is running")) /\
   trace r = [] /\
   count is_get (trace r) = 0%nat /\
   api r = api (connect (controller 3) url false [ok [tweet]])).
Proof.
  split; [reflexivity|].
  apply (sample_fails_fast_when_running json json_loads new_from_json_dict
           (api (connect (controller 3) url false [ok [tweet]]))
           None false [ok [tweet]]);
    reflexivity.
Defined.

(** C10 as stated fails: a [KeyboardInterrupt] raised in [on_tweet] is not an
    [Exception]; the [except] clause does not catch it and it leaves
    [_connect], after the cleanup, although a credential is set. *)
Lemma swallow_all_counterexample :
  let r := connect (controller 3) url false
                   [ok [tweet; interrupted_tweet; tweet]] in
  _auth (controller 3) = true /\
  ended r = Raises KeyboardInterrupt /\
  ended r <> Returns /\
  trace r = [EvGet url; EvHeaders; EvTweet (Raw tweet_json);
             EvTweet (Raw tweet_json); EvClose].
Proof. vm_compute. repeat split. discriminate. Qed.

(** [on_tweet] raises an [Exception] on the second connection of a call. *)
Lemma only_Exception_is_swallowed_witness :
  _auth (controller 3) = true /\
  ended (connect (controller 3) url false [refused 503]) = Blocks /\
  fst (fst (fst (while_body json json_loads new_from_json_dict
                   (api (connect (controller 3) url false [refused 503]))
                   url false
                   (vars (connect (controller 3) url false [refused 503]))
                   (ok [tweet; failing_tweet; tweet]))))
    = Raise (UserError "boom") /\
  (let p := connect (controller 3) url false [refused 503] in
   let body := while_body json json_loads new_from_json_dict
                 (api p) url false (vars p)
                 (ok [tweet; failing_tweet; tweet]) in
   let r := connect (controller 3) url false
              ([refused 503] ++ ok [tweet; failing_tweet; tweet] :: [ok []]) in
   (forall e', ended r = Raises e' -> is_Exception e' = false) /\
   session_closed (api r) = true /\ running (api r) = false /\
   if is_Exception (UserError "boom")
   then ended r = Returns /\
        trace r = trace p ++ snd body ++ [EvLog (UserError "boom"); EvClose]
   else ended r = Raises (UserError "boom") /\
        trace r = trace p ++ snd body ++ [EvClose]).
Proof.
  split; [reflexivity|]. split; [reflexivity|]. split; [reflexivity|].
  apply (only_Exception_is_swallowed json json_loads new_from_json_dict
           (controller 3) url false [refused 503]
           (ok [tweet; failing_tweet; tweet]) [ok []] (UserError "boom"));
    reflexivity.
Defined.

(** *** Further runs of [on_data] and [_connect] *)

(** A JSON string that contains the text [errors] passes the membership test
    and then fails on the subscript. *)
Example on_data_string_payload :
  let on_data := on_data json (fun _ => Some (JString "no errors here"))
                         new_from_json_dict in
  on_data "x" false None = (Some TypeError, []).
Proof. reflexivity. Qed.

(** A JSON number cannot be searched. *)
Example on_data_number_payload :
  let on_data := on_data json (fun _ => Some (JNumber 7)) new_from_json_dict in
  on_data "7" false None = (Some TypeError, []).
Proof. reflexivity. Qed.

(** With [return_json] set the payload must have a [data] field. *)
Example on_data_missing_data :
  let on_data := on_data json (fun _ => Some (JObject [("meta", JNull)]))
                         new_from_json_dict in
  on_data "x" true None = (Some (KeyError "data"), []) /\
  on_data "x" false None = (None, [EvTweet (Raw (JObject [("meta", JNull)]))]).
Proof. split; reflexivity. Qed.

(** Base 5, cap 320, [max_retries = 3], three refusals: sleeps of 5, 10 and
    20, then a normal return. *)
Example three_refusals :
  let r := connect (controller 3) url false (repeat (refused 503) 3) in
  sleeps (trace r) = [5; 10; 20] /\ ended r = Returns /\
  api r = {| running := false; _auth := true; max_retries := 3;
             session_closed := true |}.
Proof. vm_compute. repeat split. Qed.

(** Without a credential [_connect] raises before touching anything. *)
Example connect_needs_auth :
  let self := {| running := false; _auth := false; max_retries := 3;
                 session_closed := false |} in
  let r := connect self url false [ok [tweet]] in
  ended r = Raises (PyTwitterError (JString "Need auth")) /\
  api r = self /\ trace r = [].
Proof. vm_compute. repeat split. Qed.

(** A stream that the server closes is reopened at once, without a sleep. *)
Example closed_stream_reconnects :
  let r := connect (controller 3) url false [ok [tweet]; ok [keep_alive]] in
  ended r = Blocks /\
  trace r = [EvGet url; EvHeaders; EvTweet (Raw tweet_json);
             EvGet url; EvHeaders; EvKeepAlive].
Proof. vm_compute. repeat split. Qed.

(** ** Concrete runs of the further properties *)

Example b64encode_key_secret :
  Desk.b64encode "key:secret" = "a2V5OnNlY3JldA==" /\
  Desk.b64encode "ab" = "YWI=" /\ Desk.b64encode "" = "".
Proof. vm_compute. repeat split. Qed.

(** A controller with no budget, whatever the transport would answer. *)
Lemma no_budget_no_connection_witness :
  _auth (controller 0) = true /\
  max_retries (controller 0) <= 0 /\
  (let r := connect (controller 0) url false [ok [tweet]; refused 503] in
   ended r = Returns /\
   trace r = [EvClose] /\
   session_closed (api r) = true /\ running (api r) = false).
Proof.
  split; [reflexivity|]. split; [vm_compute; discriminate|].
  apply (no_budget_no_connection json json_loads new_from_json_dict
           (controller 0) url false [ok [tweet]; refused 503]);
    [reflexivity | vm_compute; discriminate].
Defined.

(** [disconnect()] first, then a call that streams one tweet. *)
Lemma disconnect_before_connect_is_lost_witness :
  _auth (controller 3) = true /\
  connect (disconnect (controller 3)) url false [ok [tweet]] =
  connect (controller 3) url false [ok [tweet]].
Proof.
  split; [reflexivity|].
  apply (disconnect_before_connect_is_lost json json_loads new_from_json_dict
           (controller 3) url false [ok [tweet]]).
  reflexivity.
Defined.

(** [disconnect()] during the second refused attempt of a call. *)
Lemma disconnect_waits_out_the_sleep_witness :
  _auth (controller 3) = true /\
  ended (connect (controller 3) url false [refused 503]) = Blocks /\
  429 <> 200 /\
  (let p := connect (controller 3) url false [refused 503] in
   let r := connect (controller 3) url false
              ([refused 503] ++
               Response 429 true None [] (StreamCloses false) :: [ok [tweet]]) in
   ended r = Returns /\
   trace r = trace p ++ [EvGet url; EvRequestError 429;
                         EvSleep (http_error_wait (vars p)); EvClose] /\
   retries (vars r) = retries (vars p) + 1).
Proof.
  split; [reflexivity|]. split; [reflexivity|]. split; [discriminate|].
  apply (disconnect_waits_out_the_sleep json json_loads new_from_json_dict
           (controller 3) url false [refused 503] 429 []
           (StreamCloses false) [ok [tweet]]);
    [reflexivity | reflexivity | discriminate].
Defined.

(** Three streams in a row that the server closes. *)
Lemma closed_streams_reconnect_at_once_witness :
  _auth (controller 3) = true /\
  0 < max_retries (controller 3) /\
  forallb (closed_stream json_loads new_from_json_dict false)
          [ok [tweet]; ok [keep_alive; tweet]; ok []] = true /\
  (let r := connect (controller 3) url false
                    [ok [tweet]; ok [keep_alive; tweet]; ok []] in
   ended r = Blocks /\
   count is_get (trace r) =
     List.length [ok [tweet]; ok [keep_alive; tweet]; ok []] /\
   sleeps (trace r) = [] /\
   vars r = initial_locals).
Proof.
  split; [reflexivity|]. split; [reflexivity|]. split; [reflexivity|].
  apply (closed_streams_reconnect_at_once json json_loads new_from_json_dict
           (controller 3) url false
           [ok [tweet]; ok [keep_alive; tweet]; ok []]);
    reflexivity.
Defined.

(** A call of [sample] ended by [disconnect()], then the next one. *)
Lemma sample_can_be_called_again_witness :
  running (controller 3) = false /\
  ended (sample json json_loads new_from_json_dict (controller 3) None false
                [ok [tweet; last_tweet; tweet]]) <> Blocks /\
  (let r := sample json json_loads new_from_json_dict (controller 3) None
                   false [ok [tweet; last_tweet; tweet]] in
   running (api r) = false /\
   sample json json_loads new_from_json_dict (api r) None true [ok [tweet]] =
   _connect json json_loads new_from_json_dict (api r)
            (BASE_URL ++ "/tweets/sample/stream")%string true [ok [tweet]]).
Proof.
  split; [reflexivity|]. split; [vm_compute; discriminate|].
  apply (sample_can_be_called_again json json_loads new_from_json_dict
           (controller 3) None false [ok [tweet; last_tweet; tweet]] true
           [ok [tweet]]);
    [reflexivity | vm_compute; discriminate].
Defined.

(** The token endpoint refuses the client. *)
Lemma bearer_token_request_and_answer_witness :
  Desk.json_loads Desk.refused_body =
    Some (JObject [("errors", JArray [JString "invalid client"])]) /\
  lookup "errors" [("errors", JArray [JString "invalid client"])] =
    Some (JArray [JString "invalid client"]) /\
  fst (Construct.generate_bearer_token Desk.b64encode Desk.json_loads
         "key" "secret" (inr Desk.refused_body)) =
    inl (PyTwitterError (JArray [JString "invalid client"])) /\
  map Construct.lookup_header
      (snd (Construct.generate_bearer_token Desk.b64encode Desk.json_loads
              "key" "secret" (inr Desk.refused_body))) =
    [Some "Basic a2V5OnNlY3JldA=="].
Proof.
  split; [reflexivity|]. split; [reflexivity|].
  pose proof (bearer_token_request_and_answer Desk.b64encode Desk.json_loads
                "key" "secret" (inr Desk.refused_body)) as H.
  destruct (Construct.generate_bearer_token Desk.b64encode Desk.json_loads
              "key" "secret" (inr Desk.refused_body)) as [answer sent].
  destruct H as [[p [Hsent [_ Hhead]]] [_ Herr]].
  split.
  - apply (Herr Desk.refused_body
             [("errors", JArray [JString "invalid client"])]
             (JArray [JString "invalid client"])); reflexivity.
  - cbn [snd]. rewrite Hsent. cbn [map]. rewrite Hhead. reflexivity.
Defined.

(** A controller built from a consumer key and secret. *)
Lemma init_gives_an_idle_controller_with_credential_witness :
  Desk.init None (Some "key") (Some "secret") 3 (inr Desk.token_body) =
    (inr ({| running := false; _auth := true; max_retries := 3;
             session_closed := false |}, JString "AAAA"),
     snd (Desk.init None (Some "key") (Some "secret") 3
                    (inr Desk.token_body))) /\
  List.length (snd (Desk.init None (Some "key") (Some "secret") 3
                              (inr Desk.token_body))) = 1%nat.
Proof.
  assert (H : Desk.init None (Some "key") (Some "secret") 3
                        (inr Desk.token_body) =
              (inr ({| running := false; _auth := true; max_retries := 3;
                       session_closed := false |}, JString "AAAA"),
               snd (Desk.init None (Some "key") (Some "secret") 3
                              (inr Desk.token_body)))) by reflexivity.
  split; [exact H|].
  destruct (init_gives_an_idle_controller_with_credential
              Desk.b64encode Desk.json_loads None (Some "key") (Some "secret")
              3 (inr Desk.token_body) _ _ _ H) as [_ [[Hb _]|[_ [_ [_ [Hlen _]]]]]].
  - discriminate Hb.
  - exact Hlen.
Defined.

(** The first [sample] on a controller built from a bearer token. *)
Lemma first_sample_on_a_new_controller_witness :
  Construct.__init__ Desk.b64encode json_loads (Some "AAAA") None None 3
                     (inl RequestException) =
    (inr ({| running := false; _auth := true; max_retries := 3;
             session_closed := false |}, JString "AAAA"), []) /\
  (let r := sample json json_loads new_from_json_dict
                   {| running := false; _auth := true; max_retries := 3;
                      session_closed := false |}
                   None false [ok [tweet; failing_tweet]] in
   r = guarded json
         (while_loop json json_loads new_from_json_dict
            (set_running true
               {| running := false; _auth := true; max_retries := 3;
                  session_closed := false |})
            (BASE_URL ++ "/tweets/sample/stream")%string false
            initial_locals [ok [tweet; failing_tweet]]) /\
   (forall e, ended r = Raises e -> is_Exception e = false)).
Proof.
  split; [reflexivity|].
  apply (first_sample_on_a_new_controller Desk.b64encode json_loads json
           new_from_json_dict (Some "AAAA") None None 3
           (inl RequestException) _ (JString "AAAA") [] false
           [ok [tweet; failing_tweet]]).
  reflexivity.
Defined.

(** A client built for application-only auth has no credential. *)
Lemma only_a_bearer_token_authenticates_witness :
  Rest.__init__ None (Some "key") (Some "secret") None None true false =
    inr {| Rest._auth := false |} /\
  Rest._auth {| Rest._auth := false |} = Construct.truthy None.
Proof.
  split; [reflexivity|].
  apply (proj1 (only_a_bearer_token_authenticates
                  None (Some "key") (Some "secret") None None true false)).
  reflexivity.
Defined.

(** Lookups on a client built for application-only auth. *)
Lemma client_without_bearer_token_sends_nothing_witness :
  Construct.truthy None = false /\
  Rest.__init__ None (Some "key") (Some "secret") None None true false =
    inr {| Rest._auth := false |} /\
  Desk.enf_comma_separated "ids" (Some ["1"; "2"]) = inr (Some "1,2") /\
  Desk.enf_comma_separated "user_fields" None = inr None /\
  Desk.enf_comma_separated "tweet_fields" None = inr None /\
  Desk.enf_comma_separated "expansions" None = inr None /\
  (let many := Desk.users_by_ids {| Rest._auth := false |}
                 (Some ["1"; "2"]) None None None true
                 (inr Desk.users_body) in
   let one := Desk.user_by_id {| Rest._auth := false |} "1"
                None None None true (inr Desk.users_body) in
   snd many = [] /\ snd one = [] /\
   fst one = inl (Rest.PlainException
                    "The twitter.Api instance must be authenticated.") /\
   fst many = inl (Rest.PlainException
                     "The twitter.Api instance must be authenticated.")).
Proof.
  do 6 (split; [reflexivity|]).
  destruct (client_without_bearer_token_sends_nothing
              (option (list string)) (option string) Desk.enf_comma_separated
              json json Desk.User_new_from_json_dict
              Desk.Includes_new_from_json_dict Desk.json_loads Desk.repr
              None (Some "key") (Some "secret") None None true false
              {| Rest._auth := false |} (Some ["1"; "2"]) "1" None None None
              true (inr Desk.users_body) eq_refl eq_refl)
    as [Hmany [_ [Hone [_ [Hauth1 Hauth]]]]].
  split; [exact Hmany|]. split; [exact Hone|]. split.
  - apply Hauth1. exists None, None, None. repeat split.
  - apply Hauth. exists (Some "1,2"), None, None, None. repeat split.
Defined.

(** A body that is not JSON, and a body with an [errors] field. *)
Lemma parse_response_returns_error_free_json_witness :
  Desk.json_loads "<html>" = None /\
  Rest._parse_response Desk.json_loads Desk.repr "<html>" =
    inl (Rest.Known (PyTwitterError (JString "Unknown error: b'<html>'"))) /\
  Desk.json_loads Desk.refused_body =
    Some (JObject [("errors", JArray [JString "invalid client"])]) /\
  lookup "errors" [("errors", JArray [JString "invalid client"])] =
    Some (JArray [JString "invalid client"]) /\
  Rest._parse_response Desk.json_loads Desk.repr Desk.refused_body =
    inl (Rest.Known (PyTwitterError (JArray [JString "invalid client"]))).
Proof.
  split; [reflexivity|]. split.
  - apply (proj1 (proj2 (parse_response_returns_error_free_json
                           Desk.json_loads Desk.repr "<html>"))).
    reflexivity.
  - split; [reflexivity|]. split; [reflexivity|].
    apply (proj2 (proj2 (parse_response_returns_error_free_json
                           Desk.json_loads Desk.repr Desk.refused_body))
             [("errors", JArray [JString "invalid client"])]
             (JArray [JString "invalid client"]));
      reflexivity.
Defined.

(** Two users looked up, raw output, no [includes] in the reply. *)
Lemma users_by_ids_returns_the_raw_pair_witness :
  Rest._auth Desk.client = true /\
  Desk.enf_comma_separated "ids" (Some ["1"; "2"]) = inr (Some "1,2") /\
  Desk.enf_comma_separated "user_fields" None = inr None /\
  Desk.enf_comma_separated "tweet_fields" None = inr None /\
  Desk.enf_comma_separated "expansions" None = inr None /\
  Desk.json_loads Desk.users_body =
    Some (JObject [("data", JArray [JObject [("id", JNumber 1)];
                                    JObject [("id", JNumber 2)]])]) /\
  lookup "errors" [("data", JArray [JObject [("id", JNumber 1)];
                                    JObject [("id", JNumber 2)]])] = None /\
  lookup "data" [("data", JArray [JObject [("id", JNumber 1)];
                                  JObject [("id", JNumber 2)]])] =
    Some (JArray [JObject [("id", JNumber 1)]; JObject [("id", JNumber 2)]]) /\
  Desk.users_by_ids Desk.client (Some ["1"; "2"]) None None None true
                    (inr Desk.users_body) =
  (inr (Rest.RawPair json (list json)
          (JArray [JObject [("id", JNumber 1)]; JObject [("id", JNumber 2)]])
          (Rest.includes_of
             [("data", JArray [JObject [("id", JNumber 1)];
                               JObject [("id", JNumber 2)]])])),
   [Rest.users_request (option string) (Some "1,2") None None None]).
Proof.
  repeat (split; [reflexivity|]).
  apply (users_by_ids_returns_the_raw_pair
           (option (list string)) (option string) Desk.enf_comma_separated
           json json Desk.User_new_from_json_dict
           Desk.Includes_new_from_json_dict Desk.json_loads Desk.repr
           Desk.client (Some ["1"; "2"]) None None None Desk.users_body
           [("data", JArray [JObject [("id", JNumber 1)];
                             JObject [("id", JNumber 2)]])]
           (JArray [JObject [("id", JNumber 1)]; JObject [("id", JNumber 2)]])
           (Some "1,2") None None None);
    reflexivity.
Defined.

(** Two users looked up, typed output: two models in the order of [data]. *)
Lemma users_by_ids_answer_witness :
  fst (Desk.users_by_ids Desk.client (Some ["1"; "2"]) None None None false
                         (inr Desk.users_body)) =
    inr (Rest.Models json (list json)
           [JObject [("id", JNumber 1)]; JObject [("id", JNumber 2)]] JNull) /\
  Rest._auth Desk.client = true /\
  exists body fields inner,
    (inr Desk.users_body : result string) = inr body /\
    Desk.json_loads body = Some (JObject fields) /\
    lookup "errors" fields = None /\ lookup "data" fields = Some inner /\
    false = false /\
    (exists items,
        Rest.py_iter inner = inr items /\
        Forall2 (fun d u => Desk.User_new_from_json_dict d = inr u) items
                [JObject [("id", JNumber 1)]; JObject [("id", JNumber 2)]]) /\
    Desk.Includes_new_from_json_dict (Rest.includes_of fields) = inr JNull.
Proof.
  split; [reflexivity|].
  apply (users_by_ids_answer
           (option (list string)) (option string) Desk.enf_comma_separated
           json json Desk.User_new_from_json_dict
           Desk.Includes_new_from_json_dict Desk.json_loads Desk.repr
           Desk.client (Some ["1"; "2"]) None None None false
           (inr Desk.users_body)
           (Rest.Models json (list json)
              [JObject [("id", JNumber 1)]; JObject [("id", JNumber 2)]]
              JNull)).
  reflexivity.
Defined.

(** One user looked up, raw output, with [includes] in the reply. *)
Lemma user_by_id_answer_witness :
  fst (Desk.user_by_id Desk.client "1" None None None true
                       (inr Desk.user_body)) =
    inr (Rest.RawPair json json (JObject [("id", JNumber 1)])
           (JObject [("tweets", JArray [])])) /\
  Rest._auth Desk.client = true /\
  exists body fields inner,
    (inr Desk.user_body : result string) = inr body /\
    Desk.json_loads body = Some (JObject fields) /\
    lookup "errors" fields = None /\ lookup "data" fields = Some inner /\
    true = true /\ JObject [("id", JNumber 1)] = inner /\
    JObject [("tweets", JArray [])] = Rest.includes_of fields.
Proof.
  split; [reflexivity|].
  apply (user_by_id_answer
           (option (list string)) (option string) Desk.enf_comma_separated
           json json Desk.User_new_from_json_dict
           Desk.Includes_new_from_json_dict Desk.json_loads Desk.repr
           Desk.client "1" None None None true (inr Desk.user_body)
           (Rest.RawPair json json (JObject [("id", JNumber 1)])
              (JObject [("tweets", JArray [])]))).
  reflexivity.
Defined.

(** One user looked up, typed output. *)
Lemma user_by_id_builds_the_models_witness :
  Rest._auth Desk.client = true /\
  Desk.enf_comma_separated "user_fields" (Some ["name"; "id"]) =
    inr (Some "name,id") /\
  Desk.enf_comma_separated "tweet_fields" None = inr None /\
  Desk.enf_comma_separated "expansions" None = inr None /\
  Desk.json_loads Desk.user_body =
    Some (JObject [("data", JObject [("id", JNumber 1)]);
                   ("includes", JObject [("tweets", JArray [])])]) /\
  lookup "errors" [("data", JObject [("id", JNumber 1)]);
                   ("includes", JObject [("tweets", JArray [])])] = None /\
  lookup "data" [("data", JObject [("id", JNumber 1)]);
                 ("includes", JObject [("tweets", JArray [])])] =
    Some (JObject [("id", JNumber 1)]) /\
  Desk.User_new_from_json_dict (JObject [("id", JNumber 1)]) =
    inr (JObject [("id", JNumber 1)]) /\
  Desk.Includes_new_from_json_dict
    (Rest.includes_of [("data", JObject [("id", JNumber 1)]);
                       ("includes", JObject [("tweets", JArray [])])]) =
    inr (JObject [("tweets", JArray [])]) /\
  Desk.user_by_id Desk.client "1" (Some ["name"; "id"]) None None false
                  (inr Desk.user_body) =
  (inr (Rest.Models json json (JObject [("id", JNumber 1)])
          (JObject [("tweets", JArray [])])),
   [Rest.user_request (option string) "1" (Some "name,id") None None]).
Proof.
  repeat (split; [reflexivity|]).
  apply (user_by_id_builds_the_models
           (option (list string)) (option string) Desk.enf_comma_separated
           json json Desk.User_new_from_json_dict
           Desk.Includes_new_from_json_dict Desk.json_loads Desk.repr
           Desk.client "1" (Some ["name"; "id"]) None None Desk.user_body
           [("data", JObject [("id", JNumber 1)]);
            ("includes", JObject [("tweets", JArray [])])]
           (JObject [("id", JNumber 1)]) (Some "name,id") None None
           (JObject [("id", JNumber 1)]) (JObject [("tweets", JArray [])]));
    reflexivity.
Defined.

(** C9 fails on the code: a first call is in its loop (it has read one
    stream and waits for the next connection), so [sample] is refused; then
    [disconnect()] lowers the flag, and before the first call has read it a
    second [sample] is accepted, raises the flag again and opens a connection
    of its own; the first call, finding the flag up, goes on and opens
    another one.  Two sessions run on the one controller. *)
Lemma second_session_after_disconnect :
  let first := connect (controller 3) url false [ok [tweet]] in
  let refused :=
    sample json json_loads new_from_json_dict (api first) None false
           [ok [keep_alive]] in
  let second :=
    sample json json_loads new_from_json_dict (disconnect (api first)) None
           false [ok [keep_alive]] in
  let first_goes_on :=
    while_loop json json_loads new_from_json_dict (api second) url false
               (vars first) [ok [tweet]] in
  ended first = Blocks /\ running (api first) = true /\
  ended refused = Raises (PyTwitterError (JString "Stream is running")) /\
  ended second = Blocks /\
  trace second = [EvGet url; EvHeaders; EvKeepAlive] /\
  running (api second) = true /\
  first_goes_on =
    (Blocks, api second, vars first,
     [EvGet url; EvHeaders; EvTweet (Raw tweet_json)]).
Proof. vm_compute. repeat split. Qed.

(** The same on any call still in its loop, with the example's controller. *)
Lemma disconnect_admits_second_session_witness :
  _auth (controller 3) = true /\
  0 < max_retries (controller 3) /\
  ended (connect (controller 3) url false [ok [tweet]]) = Blocks /\
  (let first := connect (controller 3) url false [ok [tweet]] in
   let refused :=
     sample json json_loads new_from_json_dict (api first) None true
            (ok [keep_alive] :: []) in
   let second :=
     sample json json_loads new_from_json_dict (disconnect (api first)) None
            true (ok [keep_alive] :: []) in
   ended refused = Raises (PyTwitterError (JString "Stream is running")) /\
   trace refused = [] /\
   (forall e, ended second <> Raises (PyTwitterError e)) /\
   exists tail,
     trace second = EvGet (BASE_URL ++ "/tweets/sample/stream")%string :: tail).
Proof.
  split; [reflexivity|]. split; [reflexivity|]. split; [reflexivity|].
  apply (disconnect_admits_second_session json json_loads new_from_json_dict
           (controller 3) url false [ok [tweet]] true (ok [keep_alive]) []);
    reflexivity.
Defined.
